(** * Rovo Pizza Runner: a shallow embedding of [src/index.js]

    The development models the quote / place pipeline of the Forge app:
    the normalizers, the retrying HTTP client, store resolution, the quote
    summary and the two actions [quotePizzaOrder] and [placePizzaOrder].
    The menu lookup [getDominosMenu] follows the two actions.

    Conventions of the embedding.
    - JavaScript values are the first-order data that JSON and the action
      payloads can carry ([value]); numbers are exact rationals extended with
      NaN and the two infinities, so [-0] and [0] coincide and no rounding
      takes place.
    - Strings are sequences of 8-bit characters; whitespace and letter case
      are those of the ASCII range, so [trim], [toUpperCase] and
      [toLowerCase] are the methods of [String.prototype] on ASCII text
      ([ascii_text]) and leave every other character alone.
    - [to_string] and [to_number] are [String] and [Number] on the values
      whose conversion does not raise ([stringifiable]).  An own [toString]
      property of a data object is not callable, so converting such an
      object raises a TypeError in the source: [normalizeServiceMethod]
      raises it ([toString_method]); elsewhere (quantities, store
      identifiers, product names) a data object is taken not to shadow
      [toString], and its string form is ["[object Object]"].
    - The theorems on the service method, on malformed quote inputs and on
      the address say which of their inputs are ASCII text and which
      convert without raising.
    - [JSON.parse], the string-to-number and number-to-string conversions are
      primitives of the host ([Runtime]); the network, [crypto.randomUUID]
      and [Math.random] are oracles of the environment ([Env]).
    - Asynchronous code is sequential within one invocation, so [await] is
      sequencing in a state-and-exception monad over [World]. *)

From Stdlib Require Import ZArith QArith Qround Ascii.
From stdpp Require Import gmap strings pretty.

Local Open Scope Z_scope.
Set Warnings "-register-all".

(** ** JavaScript data *)

Inductive number :=
| NaN
| Inf (negative : bool)
| Fin (q : Q).

Inductive value :=
| VUndef
| VNull
| VBool (b : bool)
| VNum (n : number)
| VStr (s : string)
| VArr (items : list value)
| VObj (fields : list (string * value)).

Definition num (z : Z) : value := VNum (Fin (inject_Z z)).

(** Host primitives the source calls but does not define. *)
Record Runtime := {
  JSON_parse : string -> option value;
  StringToNumber : string -> number;
  NumberToString : number -> string;
}.

(** ** Strings *)

Definition is_ws (c : ascii) : bool :=
  match c with
  | "009" | "010" | "011" | "012" | "013" | " " => true
  | _ => false
  end%char.

Definition is_line_terminator (c : ascii) : bool :=
  match c with
  | "010" | "013" => true
  | _ => false
  end%char.

Definition is_digit (c : ascii) : bool :=
  let n := nat_of_ascii c in (48 <=? n)%nat && (n <=? 57)%nat.

Definition upper_char (c : ascii) : ascii :=
  let n := nat_of_ascii c in
  if (97 <=? n)%nat && (n <=? 122)%nat then ascii_of_nat (n - 32) else c.

Definition is_empty (s : string) : bool :=
  match s with EmptyString => true | _ => false end.

Fixpoint toUpperCase (s : string) : string :=
  match s with
  | EmptyString => EmptyString
  | String c r => String (upper_char c) (toUpperCase r)
  end.

Fixpoint trimStart (s : string) : string :=
  match s with
  | EmptyString => EmptyString
  | String c r => if is_ws c then trimStart r else s
  end.

Fixpoint trimEnd (s : string) : string :=
  match s with
  | EmptyString => EmptyString
  | String c r =>
      let r' := trimEnd r in
      if is_ws c && is_empty r' then EmptyString else String c r'
  end.

Definition trim (s : string) : string := trimEnd (trimStart s).

Fixpoint starts_with (p s : string) : bool :=
  match p, s with
  | EmptyString, _ => true
  | String a p', String b s' => bool_decide (a = b) && starts_with p' s'
  | String _ _, EmptyString => false
  end.

(** [String.prototype.includes]. *)
Fixpoint includes (s needle : string) : bool :=
  starts_with needle s ||
  match s with
  | EmptyString => false
  | String _ r => includes r needle
  end.

Fixpoint take_str (n : nat) (s : string) : string :=
  match n, s with
  | S n', String c r => String c (take_str n' r)
  | _, _ => EmptyString
  end.

Fixpoint remove_char (x : ascii) (s : string) : string :=
  match s with
  | EmptyString => EmptyString
  | String c r =>
      if bool_decide (c = x) then remove_char x r else String c (remove_char x r)
  end.

Fixpoint all_chars (p : ascii -> bool) (s : string) : bool :=
  match s with
  | EmptyString => true
  | String c r => p c && all_chars p r
  end.

(** Text of the ASCII range: on it [trim] strips exactly the whitespace
    that [String.prototype.trim] strips, and [toUpperCase] and
    [toLowerCase] map exactly the letters the methods of the same name
    map. *)
Definition ascii_char (c : ascii) : bool := (nat_of_ascii c <? 128)%nat.

Definition ascii_text (s : string) : bool := all_chars ascii_char s.

(** ** Conversions and property access *)

Section Conversions.
Context (rt : Runtime).

(** [String(v)], which is also what [v.toString()] yields for a value that
    is neither [undefined] nor [null]; an object is taken not to shadow
    [toString] (see [stringifiable] below). *)
Fixpoint to_string (v : value) : string :=
  match v with
  | VUndef => "undefined"
  | VNull => "null"
  | VBool true => "true"
  | VBool false => "false"
  | VNum n => NumberToString rt n
  | VStr s => s
  | VArr items =>
      (fix join (l : list value) : string :=
         match l with
         | [] => ""
         | x :: r =>
             let sx := match x with
                       | VUndef | VNull => ""
                       | _ => to_string x
                       end in
             match r with
             | [] => sx
             | _ :: _ => sx +:+ "," +:+ join r
             end
         end) items
  | VObj _ => "[object Object]"
  end.

(** [Number(v)], with the same reading of objects. *)
Definition to_number (v : value) : number :=
  match v with
  | VUndef => NaN
  | VNull => Fin 0
  | VBool true => Fin 1
  | VBool false => Fin 0
  | VNum n => n
  | VStr s => StringToNumber rt s
  | VArr _ => StringToNumber rt (to_string v)
  | VObj _ => NaN
  end.
End Conversions.

Definition truthy (v : value) : bool :=
  match v with
  | VUndef | VNull => false
  | VBool b => b
  | VNum NaN => false
  | VNum (Inf _) => true
  | VNum (Fin q) => negb (Qeq_bool q 0)
  | VStr s => negb (is_empty s)
  | VArr _ | VObj _ => true
  end.

(** [a || b] *)
Definition js_or (a b : value) : value := if truthy a then a else b.

Definition nullish (v : value) : bool :=
  match v with VUndef | VNull => true | _ => false end.

(** [a ?? b] *)
Definition js_coalesce (a b : value) : value := if nullish a then b else a.

Fixpoint lookup_field (k : string) (fs : list (string * value)) : value :=
  match fs with
  | [] => VUndef
  | (k', v) :: r => if bool_decide (k' = k) then v else lookup_field k r
  end.

(** [v?.k], and [v.k] when [v] is known not to be nullish.  None of the
    property names the source reads is defined on strings, numbers,
    booleans or arrays. *)
Definition get (v : value) (k : string) : value :=
  match v with
  | VObj fs => lookup_field k fs
  | _ => VUndef
  end.

(** Assignment of an own property: an existing key keeps its position. *)
Fixpoint set_field (k : string) (x : value) (fs : list (string * value))
  : list (string * value) :=
  match fs with
  | [] => [(k, x)]
  | (k', v) :: r =>
      if bool_decide (k' = k) then (k, x) :: r else (k', v) :: set_field k x r
  end.

Definition typeof_object (v : value) : bool :=
  match v with VNull | VArr _ | VObj _ => true | _ => false end.

(** A value that is not a string has no text of its own. *)
Definition ascii_value (v : value) : bool :=
  match v with VStr s => ascii_text s | _ => true end.

Definition has_own (k : string) (fs : list (string * value)) : bool :=
  existsb (fun kv => bool_decide (kv.1 = k)) fs.

(** [String(v)], [v.toString()] and [Number(v)] do not raise: [v] is not an
    object with an own [toString] property (in data such a property is not
    callable, and it shadows [Object.prototype.toString]), nor an array
    that holds one ([Array.prototype.toString] converts each element that
    is neither [undefined] nor [null]). *)
Fixpoint stringifiable (v : value) : bool :=
  match v with
  | VObj fs => negb (has_own "toString" fs)
  | VArr items => forallb stringifiable items
  | _ => true
  end.

(** ** Errors *)

(** The [UserError]s of the source, one constructor per [throw] site that
    builds a distinct message. *)
Inductive user_error :=
| RequiredString (name : string)
| BadServiceMethod (raw : string)
| InvalidJson (name : string)
| NoStoresFound
| StoreIdMissing
| ItemsNotArray
| ItemNotObject (idx : nat)
| ItemCodeRequired (idx : nat)
| ItemQtyInvalid (idx : nat)
| ConfirmationRequired
| UnknownOrExpiredToken
| QuoteExpired.

Definition message (e : user_error) : string :=
  match e with
  | RequiredString name => name +:+ " is required and must be a non-empty string."
  | BadServiceMethod raw =>
      "serviceMethod must be DELIVERY or CARRYOUT (got " +:+ raw +:+ ")."
  | InvalidJson name => name +:+ " must be valid JSON."
  | NoStoresFound => "No Domino’s stores found for that address."
  | StoreIdMissing => "Could not determine a StoreID from store-locator response."
  | ItemsNotArray => "itemsJson must be a non-empty JSON array of product objects."
  | ItemNotObject idx => "itemsJson[" +:+ pretty idx +:+ "] must be an object."
  | ItemCodeRequired idx => "itemsJson[" +:+ pretty idx +:+ "].Code is required."
  | ItemQtyInvalid idx =>
      "itemsJson[" +:+ pretty idx +:+ "].Qty must be a positive number."
  | ConfirmationRequired =>
      "Refusing to place order: confirm must be true (explicit user confirmation required)."
  | UnknownOrExpiredToken => "Unknown or expired orderToken. Please re-quote the order."
  | QuoteExpired => "That quote has expired. Please re-quote the order."
  end.

(** Everything a call can raise. [RequestFailed] is the [Error] that
    [dominosFetchJson] decorates with [status] and [data]; [FetchRejected]
    is a rejection of the platform's [fetch]; [ThrownUndefined] is
    [throw lastErr] with [lastErr] never assigned. *)
Inductive exn :=
| UserError (e : user_error)
| TypeError
| RequestFailed (status : Z) (statusText : string) (data : value)
| FetchRejected
| ThrownUndefined.

Inductive result (A : Type) :=
| Ok (a : A)
| Throw (e : exn).
Arguments Ok {A} a.
Arguments Throw {A} e.

(** ** The world: storage, clock, oracles and the log of effects *)

Record Response := {
  status : Z;
  statusText : string;
  content_type : option string;
  text : string;
}.

(** [res.ok] of the Fetch API. *)
Definition ok (r : Response) : bool := (200 <=? status r) && (status r <=? 299).

Inductive outcome :=
| Responds (r : Response)
| Rejects.

(** A request as [dominosFetchJson] issues it: the URL is [DOMINOS_BASE]
    followed by [url_path] and the search parameters; the body is kept as
    the value that [JSON.stringify] receives. *)
Record Request := {
  http_method : string;
  url_path : string;
  url_params : list (string * string);
  http_body : option value;
}.

(** The record [quotePizzaOrder] stores under [pizza:quote:<token>]. *)
Record Quote := {
  createdAt : Z;
  storeId : string;
  serviceMethod : string;
  storeHint : value;
  pricedDraft : value;
}.

Inductive event :=
| Fetch (r : Request)
| StorageGet (key : string)
| StorageSet (key : string) (q : Quote)
| StorageDelete (key : string)
| Sleep (ms : Z)
| RandomUUID (id : string).

Record Env := {
  upstream : nat -> Request -> outcome;
  uuid_source : nat -> string;
  random_source : nat -> Q;
}.

Record World := {
  storage : gmap string Quote;
  clock : Z;
  fetches : nat;
  uuids : nat;
  randoms : nat;
  trace : list event;
}.

Definition log (e : event) (w : World) : World :=
  {| storage := storage w; clock := clock w; fetches := fetches w;
     uuids := uuids w; randoms := randoms w; trace := trace w ++ [e] |}.

Definition with_storage (s : gmap string Quote) (w : World) : World :=
  {| storage := s; clock := clock w; fetches := fetches w;
     uuids := uuids w; randoms := randoms w; trace := trace w |}.

(** ** The monad of one invocation *)

Definition M (A : Type) : Type := World -> result A * World.

Definition ret {A} (a : A) : M A := fun w => (Ok a, w).
Definition throw {A} (e : exn) : M A := fun w => (Throw e, w).
Definition bind {A B} (m : M A) (k : A -> M B) : M B :=
  fun w => match m w with
           | (Ok a, w') => k a w'
           | (Throw e, w') => (Throw e, w')
           end.
Definition lift {A} (r : result A) : M A := fun w => (r, w).

Notation "'let*' x ':=' m 'in' k" := (bind m (fun x => k))
  (at level 10, x binder, m at level 100, k at level 200).

(** The world after one more call of [fetch], [crypto.randomUUID],
    [Math.random] and after a timer of [ms] milliseconds. *)
Definition fetched (req : Request) (w : World) : World :=
  log (Fetch req)
    {| storage := storage w; clock := clock w; fetches := S (fetches w);
       uuids := uuids w; randoms := randoms w; trace := trace w |}.

Definition drew_uuid (id : string) (w : World) : World :=
  log (RandomUUID id)
    {| storage := storage w; clock := clock w; fetches := fetches w;
       uuids := S (uuids w); randoms := randoms w; trace := trace w |}.

Definition drew_random (w : World) : World :=
  {| storage := storage w; clock := clock w; fetches := fetches w;
     uuids := uuids w; randoms := S (randoms w); trace := trace w |}.

Definition slept (ms : Z) (w : World) : World :=
  log (Sleep ms)
    {| storage := storage w; clock := clock w + ms; fetches := fetches w;
       uuids := uuids w; randoms := randoms w; trace := trace w |}.

Section Platform.
Context (env : Env).

(** [await fetch(url, opts)] *)
Definition fetch (req : Request) : M Response :=
  fun w =>
    match upstream env (fetches w) req with
    | Responds r => (Ok r, fetched req w)
    | Rejects => (Throw FetchRejected, fetched req w)
    end.

(** [crypto.randomUUID()] *)
Definition randomUUID : M string :=
  fun w =>
    let id := uuid_source env (uuids w) in
    (Ok id, drew_uuid id w).

(** [Math.random()] *)
Definition Math_random : M Q :=
  fun w => (Ok (random_source env (randoms w)), drew_random w).
End Platform.

(** [Date.now()] *)
Definition Date_now : M Z := fun w => (Ok (clock w), w).

(** [await new Promise(r => setTimeout(r, ms))] *)
Definition sleep (ms : Z) : M unit := fun w => (Ok tt, slept ms w).

(** [storage.get], [storage.set], [storage.delete] of [@forge/api]. *)
Definition storage_get (key : string) : M (option Quote) :=
  fun w => (Ok (storage w !! key), log (StorageGet key) w).

Definition storage_set (key : string) (q : Quote) : M unit :=
  fun w => (Ok tt, log (StorageSet key q) (with_storage (<[key := q]> (storage w)) w)).

Definition storage_delete (key : string) : M unit :=
  fun w => (Ok tt, log (StorageDelete key) (with_storage (delete key (storage w)) w)).

(** ** The source, function by function *)

Definition DOMINOS_BASE : string := "https://order.dominos.com".
Definition QUOTE_TTL_MS : Z := 30 * 60 * 1000.
Definition maxAttempts : Z := 4.

Definition assertString (v : value) (name : string) : result string :=
  match v with
  | VStr s => if is_empty (trim s)
              then Throw (UserError (RequiredString name))
              else Ok (trim s)
  | _ => Throw (UserError (RequiredString name))
  end.

Definition assertOptionalString (v : value) : option string :=
  match v with
  | VStr s => if is_empty (trim s) then None else Some (trim s)
  | _ => None
  end.

Fixpoint drop_while (p : ascii -> bool) (s : string) : string :=
  match s with
  | EmptyString => EmptyString
  | String c r => if p c then drop_while p r else s
  end.

Fixpoint drop_str (n : nat) (s : string) : string :=
  match n, s with
  | S n', String _ r => drop_str n' r
  | _, _ => s
  end.

(** [s.replace(/^\s*\d+\s+/, '')] *)
Definition strip_house_number (s : string) : string :=
  let s1 := drop_while is_ws s in
  let s2 := drop_while is_digit s1 in
  let s3 := drop_while is_ws s2 in
  if (String.length s2 <? String.length s1)%nat
     && (String.length s3 <? String.length s2)%nat
  then s3 else s.

Definition unit_markers : list string :=
  ["APT"; "APARTMENT"; "UNIT"; "STE"; "SUITE"; "#"].

(** Does [/\s+(APT|APARTMENT|UNIT|STE|SUITE|#)\s*.*$/i] match at the start
    of [s], which begins with a whitespace character?  (The dot does not
    match a line terminator.) *)
Definition unit_marker_here (s : string) : bool :=
  let r := drop_while is_ws s in
  existsb
    (fun m =>
       starts_with m (toUpperCase r)
       && all_chars (fun c => negb (is_line_terminator c))
            (drop_while is_ws (drop_str (String.length m) r)))
    unit_markers.

(** [s.replace(/\s+(APT|APARTMENT|UNIT|STE|SUITE|#)\s*.*$/i, '')]: the
    leftmost match runs to the end of the input. *)
Fixpoint strip_unit (s : string) : string :=
  match s with
  | EmptyString => EmptyString
  | String c r =>
      if is_ws c && unit_marker_here s then EmptyString
      else String c (strip_unit r)
  end.

Definition buildStreetName (line1 : string) : string :=
  let s := trim line1 in
  let withoutNumber := strip_house_number s in
  let withoutUnit := trim (strip_unit withoutNumber) in
  if is_empty withoutUnit then s else withoutUnit.

Definition bind_result {A B} (r : result A) (k : A -> result B) : result B :=
  match r with
  | Ok a => k a
  | Throw e => Throw e
  end.

Notation "'try*' x ':=' r 'in' k" := (bind_result r (fun x => k))
  (at level 10, x binder, r at level 100, k at level 200).

Definition buildAddress (addressLine1 addressLine2 city region postalCode : value)
  : result value :=
  try* line1 := assertString addressLine1 "addressLine1" in
  let line2 := assertOptionalString addressLine2 in
  let street := match line2 with
                | Some l2 => line1 +:+ " " +:+ l2
                | None => line1
                end in
  try* c := assertString city "city" in
  try* r := assertString region "region" in
  try* pc := assertString postalCode "postalCode" in
  Ok (VObj [("Street", VStr street);
            ("StreetName", VStr (buildStreetName line1));
            ("City", VStr (toUpperCase c));
            ("Region", VStr (toUpperCase r));
            ("PostalCode", VStr pc);
            ("Type", VStr (match line2 with Some _ => "Apartment" | None => "House" end))]).

Section Source.
Context (rt : Runtime) (env : Env).

(** [v.toString()], for a [v] that is neither [undefined] nor [null]. *)
Definition toString_method (v : value) : result string :=
  if stringifiable v then Ok (to_string rt v) else Throw TypeError.

Definition normalizeServiceMethod (sm : value) : result string :=
  try* s := toString_method (js_or sm (VStr "DELIVERY")) in
  let raw := toUpperCase (trim s) in
  if bool_decide (raw = "DELIVERY") then Ok "Delivery"
  else if bool_decide (raw = "CARRYOUT") then Ok "Carryout"
  else Throw (UserError (BadServiceMethod raw)).

(** The [details] of the error, [{ error: String(e) }], is the host's
    text for the syntax error and is not kept. *)
Definition safeJsonParse (str name : string) : result value :=
  match JSON_parse rt str with
  | Some v => Ok v
  | None => Throw (UserError (InvalidJson name))
  end.

(** The search parameters: entries whose value is [null] or [undefined]
    are skipped, the others are converted with [String]. *)
Definition search_params (query : list (string * value)) : list (string * string) :=
  omap (fun '(k, v) => if nullish v then None else Some (k, to_string rt v)) query.

(** The parsed body of a response:
    [isJson && text ? safeJsonParse(text, ...) : (text || null)]. *)
Definition response_data (res : Response) : result value :=
  let isJson := includes (default "" (content_type res)) "application/json" in
  if isJson && negb (is_empty (text res))
  then safeJsonParse (text res) "Domino response"
  else Ok (if is_empty (text res) then VNull else VStr (text res)).

Definition retryable (res : Response) : bool :=
  (status res =? 429) || ((500 <=? status res) && (status res <=? 599)).

Definition backoff_base (attempt : Z) : Z := 250 * 2 ^ (attempt - 1).

Definition jitter_of (r : Q) : Z := Qfloor (r * 200).

(** The [for] loop of [dominosFetchJson], with [n] iterations left
    ([attempt <= maxAttempts]) and the final [throw lastErr]. *)
Fixpoint fetch_attempts (n : nat) (attempt : Z) (req : Request)
  (lastErr : option exn) : M value :=
  match n with
  | O => throw (default ThrownUndefined lastErr)
  | S n' =>
      let* res := fetch env req in
      let* data := lift (response_data res) in
      if ok res then ret data
      else
        let err := RequestFailed (status res) (statusText res) data in
        if negb (retryable res) || (attempt =? maxAttempts) then throw err
        else
          let base := backoff_base attempt in
          let* r := Math_random env in
          let jitter := jitter_of r in
          let* _ := sleep (base + jitter) in
          fetch_attempts n' (attempt + 1) req (Some err)
  end.

(** The URL, headers and payload that [dominosFetchJson] prepares. *)
Definition request_of (path method : string)
  (query : list (string * value)) (body : value) : Request :=
  {| http_method := method; url_path := path;
     url_params := search_params query;
     http_body := if nullish body then None else Some body |}.

Definition dominosFetchJson (path method : string)
  (query : list (string * value)) (body : value) : M value :=
  fetch_attempts (Z.to_nat maxAttempts) 1
    (request_of path method query body) None.
End Source.

(** [Array.prototype.find]: the first element that satisfies [p], or
    [undefined]. *)
Fixpoint js_find (p : value -> bool) (l : list value) : value :=
  match l with
  | [] => VUndef
  | x :: r => if p x then x else js_find p r
  end.

Definition as_array (v : value) : list value :=
  match v with VArr l => l | _ => [] end.

Definition is_online (s : value) : bool := truthy (get s "IsOnlineNow").

Definition is_online_and_open (s : value) : bool :=
  truthy (get s "IsOnlineNow")
  && truthy (js_or (get s "IsOpen") (get s "ServiceIsOpen")).

(** The [best] of [findBestStore]. *)
Definition best_store (stores : list value) : value :=
  js_or (js_or (js_find is_online_and_open stores) (js_find is_online stores))
        (nth 0 stores VUndef).

Definition is_true (v : value) : bool :=
  match v with VBool true => true | _ => false end.

Definition is_number_zero (v : value) : bool :=
  match v with VNum (Fin q) => Qeq_bool q 0 | _ => false end.

Definition is_string (s : string) (v : value) : bool :=
  match v with VStr s' => bool_decide (s' = s) | _ => false end.

Section Pipeline.
Context (rt : Runtime) (env : Env).

(** [String(best?.StoreID || best?.StoreId || '').trim()] *)
Definition store_id_of (best : value) : string :=
  trim (to_string rt
          (js_or (js_or (get best "StoreID") (get best "StoreId")) (VStr ""))).

(** The store-locator call of [findBestStore]. *)
Definition store_locator (addressLine1 city region postalCode : value)
  (serviceMethod : string) : M value :=
  let type := if bool_decide (serviceMethod = "Delivery")
              then "Delivery" else "Carryout" in
  let c := to_string rt city +:+ ", " +:+ to_string rt region +:+ " "
           +:+ to_string rt postalCode in
  dominosFetchJson rt env "/power/store-locator" "GET"
    [("s", addressLine1); ("c", VStr c); ("type", VStr type)] VUndef.

Definition findBestStore (addressLine1 city region postalCode : value)
  (serviceMethod : string) : M (string * value) :=
  let* data := store_locator addressLine1 city region postalCode serviceMethod in
  let stores := as_array (get data "Stores") in
  if (length stores =? 0)%nat then throw (UserError NoStoresFound)
  else
    let best := best_store stores in
    let storeId := store_id_of best in
    if is_empty storeId then throw (UserError StoreIdMissing)
    else ret (storeId, best).

Definition own_fields (v : value) : list (string * value) :=
  match v with VObj fs => fs | _ => [] end.

(** The callback of [items.map] in [buildProducts]. *)
Definition buildProduct (idx : nat) (p : value) : result value :=
  if negb (truthy p) || negb (typeof_object p)
  then Throw (UserError (ItemNotObject idx))
  else
    match get p "Code" with
    | VStr code =>
        if is_empty (trim code) then Throw (UserError (ItemCodeRequired idx))
        else
          match to_number rt (get p "Qty") with
          | Fin qty =>
              if Qle_bool qty 0 then Throw (UserError (ItemQtyInvalid idx))
              else
                Ok (VObj
                      (set_field "isNew" (js_coalesce (get p "isNew") (VBool false))
                         (set_field "ID"
                            (js_coalesce (get p "ID") (num (Z.of_nat idx + 1)))
                            (set_field "Qty" (num (Qfloor qty))
                               (set_field "Code" (VStr (trim code))
                                  (own_fields p))))))
          | _ => Throw (UserError (ItemQtyInvalid idx))
          end
    | _ => Throw (UserError (ItemCodeRequired idx))
    end.

Fixpoint map_products (idx : nat) (items : list value) : result (list value) :=
  match items with
  | [] => Ok []
  | p :: r =>
      try* x := buildProduct idx p in
      try* xs := map_products (S idx) r in
      Ok (x :: xs)
  end.

Definition buildProducts (items : value) : result (list value) :=
  match items with
  | VArr (p :: r) => map_products 0 (p :: r)
  | _ => Throw (UserError ItemsNotArray)
  end.

(** The callback of [products.map] in [summarizeQuote]; reading a
    property of [null] or [undefined] raises a [TypeError]. *)
Definition summary_item (p : value) : result value :=
  if nullish p then Throw TypeError
  else Ok (VObj [("code", get p "Code"); ("qty", get p "Qty")]).

Fixpoint summary_items (products : list value) : result (list value) :=
  match products with
  | [] => Ok []
  | p :: r =>
      try* x := summary_item p in
      try* xs := summary_items r in
      Ok (x :: xs)
  end.

Definition quote_total (priced amounts : value) : value :=
  js_or (js_or (js_or (js_or (js_or (get amounts "Customer")
                                    (get amounts "Payment"))
                             (get amounts "Order"))
                      (get amounts "Total"))
               (get amounts "Amount"))
        (get (get (get priced "Order") "Amounts") "Customer").

Definition summarizeQuote (priced : value) : result value :=
  let order := js_or (get priced "Order") (VObj []) in
  let products := as_array (get order "Products") in
  let amounts := js_or (get order "Amounts") (VObj []) in
  let total := quote_total priced amounts in
  try* items := summary_items products in
  Ok (VObj [("storeId", get order "StoreID");
            ("serviceMethod", get order "ServiceMethod");
            ("items", VArr items);
            ("totals", amounts);
            ("total", js_coalesce total VNull)]).
End Pipeline.

Definition quote_key (orderToken : string) : string := "pizza:quote:" +:+ orderToken.

Record Validated := {
  v_serviceMethod : string;
  v_storeId : string;
  v_store : value;
  v_response : value;
}.

Section Actions.
Context (rt : Runtime) (env : Env).

Definition orderPayload (address : value) (email phone : string)
  (products : list value) (serviceMethod storeId orderId : string) : value :=
  VObj [("Order", VObj [
    ("Address", address);
    ("Coupons", VArr []);
    ("CustomerID", VStr "");
    ("Email", VStr email);
    ("Extension", VStr "");
    ("FirstName", VStr "");
    ("LastName", VStr "");
    ("LanguageCode", VStr "en");
    ("OrderChannel", VStr "OLO");
    ("OrderID", VStr orderId);
    ("OrderMethod", VStr "Web");
    ("OrderTaker", VNull);
    ("Payments", VArr []);
    ("Phone", VStr phone);
    ("PhonePrefix", VStr "");
    ("Products", VArr products);
    ("ServiceMethod", VStr serviceMethod);
    ("SourceOrganizationURI", VStr "order.dominos.com");
    ("StoreID", VStr storeId);
    ("Tags", VObj []);
    ("Version", VStr "1.0");
    ("NoCombine", VBool true);
    ("Partners", VObj []);
    ("OrderInfoCollection", VArr [])])].

(** [quotePizzaOrder], first part: normalization, store resolution and
    the validate-order call. *)
Definition quoteValidate (payload : value) : M Validated :=
  let* serviceMethod :=
    lift (normalizeServiceMethod rt (get payload "serviceMethod")) in
  let* address :=
    lift (buildAddress (get payload "addressLine1") (get payload "addressLine2")
            (get payload "city") (get payload "region")
            (get payload "postalCode")) in
  let* phone := lift (assertString (get payload "phone") "phone") in
  let* email := lift (assertString (get payload "email") "email") in
  let* itemsJson := lift (assertString (get payload "itemsJson") "itemsJson") in
  let* items := lift (safeJsonParse rt itemsJson "itemsJson") in
  let* products := lift (buildProducts rt items) in
  let* found :=
    findBestStore rt env (get payload "addressLine1") (get payload "city")
      (get payload "region") (get payload "postalCode") serviceMethod in
  let* id := randomUUID env in
  let orderId := take_str 20 (remove_char "-" id) in
  let* validated :=
    dominosFetchJson rt env "/power/validate-order" "POST" []
      (orderPayload address email phone products serviceMethod (fst found)
         orderId) in
  ret {| v_serviceMethod := serviceMethod; v_storeId := fst found;
         v_store := snd found; v_response := validated |}.

(** [validated?.Status && validated.Status !== 0 && validated.Status !== '0'] *)
Definition validation_rejected (validated : value) : bool :=
  truthy (get validated "Status")
  && negb (is_number_zero (get validated "Status"))
  && negb (is_string "0" (get validated "Status")).

Definition rejection (validated : value) : value :=
  VObj [("ok", VBool false);
        ("step", VStr "validate-order");
        ("status", get validated "Status");
        ("message", js_or (get validated "Message")
                      (VStr "Order validation failed."));
        ("details", validated)].

Definition quote_message : string :=
  "Quote created. Present this summary to the user and only call place-pizza-order with confirm=true after explicit confirmation.".

(** [quotePizzaOrder], second part: the status check, the price-order
    call, the token and the stored draft. *)
Definition quoteFinish (v : Validated) : M value :=
  let validated := v_response v in
  if validation_rejected validated then ret (rejection validated)
  else
    let* priced :=
      dominosFetchJson rt env "/power/price-order" "POST" [] validated in
    let* orderToken := randomUUID env in
    let* now := Date_now in
    let* _ :=
      storage_set (quote_key orderToken)
        {| createdAt := now;
           storeId := v_storeId v;
           serviceMethod := v_serviceMethod v;
           storeHint :=
             VObj [("StoreID", get (v_store v) "StoreID");
                   ("Name", get (v_store v) "Name");
                   ("AddressDescription", get (v_store v) "AddressDescription")];
           pricedDraft := priced |} in
    let* quote := lift (summarizeQuote priced) in
    ret (VObj [("ok", VBool true);
               ("orderToken", VStr orderToken);
               ("quote", quote);
               ("message", VStr quote_message)]).

Definition quotePizzaOrder (payload : value) : M value :=
  let* v := quoteValidate payload in
  quoteFinish v.

Definition place_note : string :=
  "If Domino’s rejects due to payment requirements, extend the schema to collect a supported payment method or switch to a handoff flow.".

Definition placePizzaOrder (payload : value) : M value :=
  let* orderToken := lift (assertString (get payload "orderToken") "orderToken") in
  let confirm := is_true (get payload "confirm") in
  if negb confirm then throw (UserError ConfirmationRequired)
  else
    let* saved := storage_get (quote_key orderToken) in
    match saved with
    | None => throw (UserError UnknownOrExpiredToken)
    | Some saved =>
        let* now := Date_now in
        if QUOTE_TTL_MS <? now - createdAt saved then
          let* _ := storage_delete (quote_key orderToken) in
          throw (UserError QuoteExpired)
        else
          let* placed :=
            dominosFetchJson rt env "/power/place-order" "POST" []
              (pricedDraft saved) in
          let* _ := storage_delete (quote_key orderToken) in
          ret (VObj [("ok", VBool true);
                     ("result", placed);
                     ("note", VStr place_note)])
    end.
End Actions.

(** ** Reading the log *)

Definition is_fetch_to (path : string) (e : event) : bool :=
  match e with Fetch r => bool_decide (url_path r = path) | _ => false end.

Definition is_storage_access (e : event) : bool :=
  match e with
  | StorageGet _ | StorageSet _ _ | StorageDelete _ => true
  | _ => false
  end.

Definition is_storage_write (e : event) : bool :=
  match e with StorageSet _ _ => true | _ => false end.

Definition is_storage_delete (e : event) : bool :=
  match e with StorageDelete _ => true | _ => false end.

Definition is_uuid (e : event) : bool :=
  match e with RandomUUID _ => true | _ => false end.

Definition sleeps (evs : list event) : list Z :=
  omap (fun e => match e with Sleep ms => Some ms | _ => None end) evs.

(** The log of one [dominosFetchJson] call that waited [delays] between
    its attempts. *)
Fixpoint retry_log (req : Request) (delays : list Z) : list event :=
  match delays with
  | [] => [Fetch req]
  | d :: r => Fetch req :: Sleep d :: retry_log req r
  end.

(** What the last attempt of a call returns or raises. *)
Definition final_outcome (rt : Runtime) (o : outcome) (res : result value) : Prop :=
  match o with
  | Rejects => res = Throw FetchRejected
  | Responds r =>
      match response_data rt r with
      | Throw e => res = Throw e
      | Ok data =>
          if ok r then res = Ok data
          else res = Throw (RequestFailed (status r) (statusText r) data)
      end
  end.

(** The delay before retry [i + 1] of a call that started in world [w] at
    attempt number [attempt]. *)
Definition delay_before (env : Env) (w : World) (attempt : Z) (i : nat) : Z :=
  250 * 2 ^ (attempt + Z.of_nat i - 1)
  + Qfloor (random_source env (randoms w + i)%nat * 200).

(** ** A concrete host for the examples *)

Definition dq : string := String "034" EmptyString.

(** [q s] is [s] between double quotes. *)
Definition q (s : string) : string := dq +:+ s +:+ dq.

Fixpoint digits_value (acc : Z) (s : string) : option Z :=
  match s with
  | EmptyString => Some acc
  | String c r =>
      if is_digit c
      then digits_value (10 * acc + Z.of_nat (nat_of_ascii c) - 48) r
      else None
  end.

Definition doc_items : string :=
  "[{" +:+ q "Code" +:+ ":" +:+ q "14SCREEN" +:+ "," +:+ q "Qty" +:+ ":1}]".
Definition doc_stores : string :=
  "{" +:+ q "Stores" +:+ ":[{" +:+ q "StoreID" +:+ ":" +:+ q "123" +:+ "}]}".
Definition doc_three_stores : string :=
  "{" +:+ q "Stores" +:+ ":[{" +:+ q "StoreID" +:+ ":" +:+ q "1" +:+ "},{"
  +:+ q "StoreID" +:+ ":" +:+ q "2" +:+ "," +:+ q "IsOnlineNow" +:+ ":true},{"
  +:+ q "StoreID" +:+ ":" +:+ q "3" +:+ "," +:+ q "IsOnlineNow" +:+ ":true,"
  +:+ q "IsOpen" +:+ ":true}]}".
Definition doc_status_zero : string := "{" +:+ q "Status" +:+ ":0}".
Definition doc_status_one : string :=
  "{" +:+ q "Status" +:+ ":1," +:+ q "Message" +:+ ":"
  +:+ q "Address not serviceable" +:+ "}".
Definition doc_status_empty : string := "{" +:+ q "Status" +:+ ":" +:+ q "" +:+ "}".
Definition doc_priced : string :=
  "{" +:+ q "Order" +:+ ":{" +:+ q "Amounts" +:+ ":{" +:+ q "Customer"
  +:+ ":19.99}}}".
Definition doc_placed : string := "{" +:+ q "OrderID" +:+ ":" +:+ q "ABC123" +:+ "}".
Definition doc_error : string := "{" +:+ q "error" +:+ ":" +:+ q "busy" +:+ "}".

Definition val_items : value :=
  VArr [VObj [("Code", VStr "14SCREEN"); ("Qty", num 1)]].
Definition val_stores : value :=
  VObj [("Stores", VArr [VObj [("StoreID", VStr "123")]])].
Definition val_three_stores : value :=
  VObj [("Stores",
         VArr [VObj [("StoreID", VStr "1")];
               VObj [("StoreID", VStr "2"); ("IsOnlineNow", VBool true)];
               VObj [("StoreID", VStr "3"); ("IsOnlineNow", VBool true);
                     ("IsOpen", VBool true)]])].
Definition val_status_zero : value := VObj [("Status", num 0)].
Definition val_status_one : value :=
  VObj [("Status", num 1); ("Message", VStr "Address not serviceable")].
Definition val_status_empty : value := VObj [("Status", VStr "")].
Definition val_priced : value :=
  VObj [("Order", VObj [("Amounts", VObj [("Customer", VNum (Fin (1999 # 100)))])])].
Definition val_placed : value := VObj [("OrderID", VStr "ABC123")].
Definition val_error : value := VObj [("error", VStr "busy")].

Definition demo_documents : list (string * value) :=
  [(doc_items, val_items); (doc_stores, val_stores);
   (doc_three_stores, val_three_stores);
   (doc_status_zero, val_status_zero); (doc_status_one, val_status_one);
   (doc_status_empty, val_status_empty); (doc_priced, val_priced);
   (doc_placed, val_placed); (doc_error, val_error)].

Fixpoint find_document (s : string) (docs : list (string * value)) : option value :=
  match docs with
  | [] => None
  | (d, v) :: r => if bool_decide (d = s) then Some v else find_document s r
  end.

(** A host whose [JSON.parse] knows the documents of the examples and
    rejects every other text, and whose number conversions cover the
    decimal integers. *)
Definition demo_runtime : Runtime := {|
  JSON_parse := fun s => find_document s demo_documents;
  StringToNumber := fun s =>
    match digits_value 0 (trim s) with
    | Some z => Fin (inject_Z z)
    | None => NaN
    end;
  NumberToString := fun n =>
    match n with
    | NaN => "NaN"
    | Inf false => "Infinity"
    | Inf true => "-Infinity"
    | Fin x => pretty (Qfloor x)
    end;
|}.

(** ** Vocabulary of the specification *)

(** The form under which [normalizeServiceMethod] compares its input:
    converted to a string, trimmed, upper case. *)
Definition service_key (rt : Runtime) (v : value) : string :=
  toUpperCase (trim (to_string rt v)).

(** The priority table of the total. *)
Definition total_priority : list string :=
  ["Customer"; "Payment"; "Order"; "Total"; "Amount"].

Definition is_present (v : value) : bool :=
  match v with VUndef => false | _ => true end.

(** The total as the specification words it: the value of the first field
    of the table that is present in the amounts object, [null] when none
    is. *)
Fixpoint first_present (amounts : value) (names : list string) : value :=
  match names with
  | [] => VNull
  | k :: r =>
      if is_present (get amounts k) then get amounts k
      else first_present amounts r
  end.

(** The first field of the table whose value is truthy. *)
Fixpoint first_truthy (amounts : value) (names : list string) : option value :=
  match names with
  | [] => None
  | k :: r =>
      if truthy (get amounts k) then Some (get amounts k)
      else first_truthy amounts r
  end.

Definition order_of (priced : value) : value :=
  js_or (get priced "Order") (VObj []).

Definition amounts_of (priced : value) : value :=
  js_or (get (order_of priced) "Amounts") (VObj []).

Definition code_qty (p : value) : value :=
  VObj [("code", get p "Code"); ("qty", get p "Qty")].




(** The service method as the specification words it: it matches neither
    [DELIVERY] nor [CARRYOUT]. *)
Definition matches_no_service_method (rt : Runtime) (v : value) : Prop :=
  service_key rt v <> "DELIVERY" /\ service_key rt v <> "CARRYOUT".

(** ** Environments of the examples *)

Definition json_response (st : Z) (reason body : string) : Response :=
  {| status := st; statusText := reason;
     content_type := Some "application/json"; text := body |}.

Definition ok_response (body : string) : outcome :=
  Responds (json_response 200 "OK" body).

Definition busy_response : outcome :=
  Responds (json_response 503 "Service Unavailable" doc_error).

Definition bad_request_response : outcome :=
  Responds (json_response 400 "Bad Request" doc_error).

(** An upstream that gives the listed answers in order, whatever the
    request, and rejects afterwards; two fixed UUIDs; a constant
    [Math.random]. *)
Definition demo_env (answers : list outcome) : Env :=
  {| upstream := fun i _ => nth i answers Rejects;
     uuid_source := fun i =>
       nth i ["123e4567-e89b-12d3-a456-426614174000";
              "9b2f0c1e-7d4a-4c55-8e21-0a1b2c3d4e5f"]
             "00000000-0000-4000-8000-000000000000";
     random_source := fun _ => 1 # 2 |}.

Definition empty_world (now : Z) : World :=
  {| storage := ∅; clock := now; fetches := 0; uuids := 0; randoms := 0;
     trace := [] |}.

Definition demo_payload : value :=
  VObj [("addressLine1", VStr "1 Main St");
        ("city", VStr "New York");
        ("region", VStr "NY");
        ("postalCode", VStr "10001");
        ("phone", VStr "2125551212");
        ("email", VStr "test@example.com");
        ("itemsJson", VStr doc_items);
        ("serviceMethod", VStr "DELIVERY")].

Definition demo_quote : Quote :=
  {| createdAt := 1000000; storeId := "123"; serviceMethod := "Delivery";
     storeHint := VObj [("StoreID", VStr "123"); ("Name", VUndef);
                        ("AddressDescription", VUndef)];
     pricedDraft := val_priced |}.

(** A world that holds [demo_quote] under the token ["tok"]. *)
Definition quoted_world (now : Z) : World :=
  {| storage := {[ quote_key "tok" := demo_quote ]}; clock := now;
     fetches := 0; uuids := 0; randoms := 0; trace := [] |}.

Definition place_payload (confirm : value) : value :=
  VObj [("orderToken", VStr "tok"); ("confirm", confirm)].

(** ** Vocabulary of the pipeline claims *)

(** A required field is blank when it is missing, not a string, or empty
    after trimming. *)
Definition blank_field (v : value) : bool :=
  match v with VStr s => is_empty (trim s) | _ => true end.

Definition required_fields : list string :=
  ["addressLine1"; "city"; "region"; "postalCode"; "phone"; "email"].

Definition positive_finite (n : number) : bool :=
  match n with Fin x => negb (Qle_bool x 0) | _ => false end.

Definition bad_item (rt : Runtime) (p : value) : bool :=
  blank_field (get p "Code") || negb (positive_finite (to_number rt (get p "Qty"))).

Definition nonempty_array (v : value) : bool :=
  match v with VArr (_ :: _) => true | _ => false end.

(** The service methods the source rejects: a falsy one is replaced by
    ['DELIVERY'] before the comparison, so only a truthy one that matches
    neither word is rejected. *)
Definition unrecognized_service_method (rt : Runtime) (v : value) : bool :=
  truthy v
  && negb (bool_decide (service_key rt v = "DELIVERY"))
  && negb (bool_decide (service_key rt v = "CARRYOUT")).

(** The malformed inputs of the quote operation that the source rejects.
    The item list and the service method are ASCII text. *)
Inductive malformed (rt : Runtime) (payload : value) : Prop :=
| blank_required (k : string) :
    In k required_fields -> blank_field (get payload k) = true ->
    malformed rt payload
| items_blank :
    blank_field (get payload "itemsJson") = true ->
    malformed rt payload
| items_not_json (s : string) :
    get payload "itemsJson" = VStr s -> ascii_text s = true ->
    JSON_parse rt (trim s) = None ->
    malformed rt payload
| items_empty (s : string) (parsed : value) :
    get payload "itemsJson" = VStr s -> ascii_text s = true ->
    JSON_parse rt (trim s) = Some parsed -> nonempty_array parsed = false ->
    malformed rt payload
| item_bad (s : string) (items : list value) (p : value) :
    get payload "itemsJson" = VStr s -> ascii_text s = true ->
    JSON_parse rt (trim s) = Some (VArr items) ->
    In p items -> bad_item rt p = true ->
    malformed rt payload
| service_method_unrecognized :
    ascii_text (to_string rt (get payload "serviceMethod")) = true ->
    unrecognized_service_method rt (get payload "serviceMethod") = true ->
    malformed rt payload.

(** The conversions of the quote operation do not raise: [toString] on the
    service method, [Number] on the quantity of each item. *)
Definition converts_without_raising (rt : Runtime) (payload : value) : Prop :=
  stringifiable (get payload "serviceMethod") = true
  /\ forall s items,
       get payload "itemsJson" = VStr s ->
       JSON_parse rt (trim s) = Some (VArr items) ->
       Forall (fun p => stringifiable (get p "Qty") = true) items.

(** The errors that report a bad input of the quote operation. *)
Definition is_validation_error (e : user_error) : bool :=
  match e with
  | RequiredString _ | BadServiceMethod _ | InvalidJson _ | ItemsNotArray
  | ItemNotObject _ | ItemCodeRequired _ | ItemQtyInvalid _ => true
  | _ => false
  end.

Definition count_events (p : event -> bool) (evs : list event) : nat :=
  length (filter (fun e => p e = true) evs).

Definition none_of (p : event -> bool) (evs : list event) : Prop :=
  Forall (fun e => p e = false) evs.

(** ** The menu lookup *)

Definition MAX_MENU_RESULTS : nat := 250.

Definition lower_char (c : ascii) : ascii :=
  let n := nat_of_ascii c in
  if (65 <=? n)%nat && (n <=? 90)%nat then ascii_of_nat (n + 32) else c.

Fixpoint toLowerCase (s : string) : string :=
  match s with
  | EmptyString => EmptyString
  | String c r => String (lower_char c) (toLowerCase r)
  end.

Definition hex_digit (n : nat) : ascii :=
  ascii_of_nat (if (n <? 10)%nat then 48 + n else 55 + n).

(** The characters [encodeURIComponent] leaves as they are. *)
Definition is_unreserved (c : ascii) : bool :=
  let n := nat_of_ascii c in
  ((65 <=? n)%nat && (n <=? 90)%nat)
  || ((97 <=? n)%nat && (n <=? 122)%nat)
  || is_digit c
  || match c with
     | "-" | "_" | "." | "!" | "~" | "*" | "'" | "(" | ")" => true
     | _ => false
     end%char.

Fixpoint encodeURIComponent (s : string) : string :=
  match s with
  | EmptyString => EmptyString
  | String c r =>
      if is_unreserved c then String c (encodeURIComponent r)
      else
        let n := nat_of_ascii c in
        String "%" (String (hex_digit (n / 16))
                      (String (hex_digit (n mod 16)) (encodeURIComponent r)))
  end.

Fixpoint string_entries (i : nat) (s : string) : list (string * value) :=
  match s with
  | EmptyString => []
  | String c r => (pretty i, VStr (String c EmptyString)) :: string_entries (S i) r
  end.

(** [Object.entries(v)] for a value that is neither [null] nor
    [undefined]; the field list of an object is taken to be in the order
    in which its own properties are enumerated. *)
Definition object_entries (v : value) : list (string * value) :=
  match v with
  | VObj fs => fs
  | VArr l => imap (fun i x => (pretty i, x)) l
  | VStr s => string_entries 0 s
  | _ => []
  end.

(** [Object.keys(v)] *)
Definition object_keys (v : value) : list string := map fst (object_entries v).

Definition menu_products (menu : value) : value :=
  js_or (js_or (get menu "Products") (get menu "products")) (VObj []).

Definition menu_categories (menu : value) : value :=
  js_or (js_or (get menu "Categories") (get menu "categories")) (VObj []).

Definition menu_note : string :=
  "Menu can be large. Provide a `search` term for better results.".

Section Menu.
Context (rt : Runtime) (env : Env).

Definition product_name (p : value) : string :=
  to_string rt (js_or (js_or (get p "Name") (get p "name")) (VStr "")).

Definition product_description (p : value) : string :=
  to_string rt (js_or (js_or (get p "Description") (get p "description")) (VStr "")).

(** [`${code} ${name} ${desc}`.toLowerCase()] *)
Definition haystack (entry : string * value) : string :=
  toLowerCase (fst entry +:+ " " +:+ product_name (snd entry) +:+ " "
               +:+ product_description (snd entry)).

(** [!needle || hay.includes(needle)] *)
Definition menu_matches (needle : option string) (entry : string * value) : bool :=
  match needle with
  | None => true
  | Some n => is_empty n || includes (haystack entry) n
  end.

(** The object pushed onto [filtered]. *)
Definition menu_item (entry : string * value) : value :=
  let desc := product_description (snd entry) in
  VObj [("code", VStr (fst entry));
        ("name", VStr (product_name (snd entry)));
        ("description", if is_empty desc then VUndef else VStr desc);
        ("tags", js_or (js_or (get (snd entry) "Tags") (get (snd entry) "tags"))
                   VUndef)].

(** The [for ... of] loop of [getDominosMenu], entered with the items
    pushed so far. *)
Fixpoint menu_filter (needle : option string) (entries : list (string * value))
  (filtered : list value) : list value :=
  match entries with
  | [] => filtered
  | entry :: rest =>
      let filtered' :=
        if menu_matches needle entry then filtered ++ [menu_item entry]
        else filtered in
      if (MAX_MENU_RESULTS <=? length filtered')%nat then filtered'
      else menu_filter needle rest filtered'
  end.

Definition menu_path (storeId : string) : string :=
  "/power/store/" +:+ encodeURIComponent storeId +:+ "/menu".

Definition getDominosMenu (payload : value) : M value :=
  let* storeId := lift (assertString (get payload "storeId") "storeId") in
  let search := assertOptionalString (get payload "search") in
  let* menu :=
    dominosFetchJson rt env (menu_path storeId) "GET"
      [("lang", VStr "en"); ("structured", VStr "true")] VUndef in
  let entries := object_entries (menu_products menu) in
  let needle := option_map toLowerCase search in
  let filtered := menu_filter needle entries [] in
  match search with
  | None =>
      let categoryKeys := take 50 (object_keys (menu_categories menu)) in
      ret (VObj [("storeId", VStr storeId);
                 ("note", VStr menu_note);
                 ("categories", VArr (map VStr categoryKeys));
                 ("sampleProducts", VArr (take 50 filtered))])
  | Some s =>
      ret (VObj [("storeId", VStr storeId);
                 ("search", VStr s);
                 ("count", num (Z.of_nat (length filtered)));
                 ("results", VArr filtered);
                 ("truncated",
                  VBool (MAX_MENU_RESULTS <=? length filtered)%nat)])
  end.
End Menu.

(** ** Vocabulary of the further properties *)

(** No leading and no trailing whitespace. *)
Definition is_trimmed (s : string) : Prop := trim s = s.


(** The first of the required address fields that is blank. *)
Definition first_blank_address_field (a1 c r p : value) : option string :=
  if blank_field a1 then Some "addressLine1"
  else if blank_field c then Some "city"
  else if blank_field r then Some "region"
  else if blank_field p then Some "postalCode"
  else None.

Fixpoint sum_list (l : list Z) : Z :=
  match l with
  | [] => 0
  | x :: r => x + sum_list r
  end.

(** An upstream that answers the [k] attempts from index [from] on with a
    retryable status and a body that decodes. *)
Definition transient_failures (rt : Runtime) (env : Env) (req : Request)
  (from k : nat) : Prop :=
  forall i, (i < k)%nat ->
    exists r data,
      upstream env (from + i)%nat req = Responds r
      /\ ok r = false /\ retryable r = true
      /\ response_data rt r = Ok data.

Definition head_not_ws (s : string) : Prop :=
  match s with
  | EmptyString => True
  | String c _ => is_ws c = false
  end.

(** How [buildProducts] turns the item [p] at index [idx] into [p']. *)
Definition normalized_product (rt : Runtime) (idx : nat) (p p' : value) : Prop :=
  (exists code,
      get p "Code" = VStr code /\ trim code <> ""
      /\ get p' "Code" = VStr (trim code))
  /\ (exists qty,
        to_number rt (get p "Qty") = Fin qty /\ (0 < qty)%Q
        /\ get p' "Qty" = num (Qfloor qty) /\ 0 <= Qfloor qty)
  /\ get p' "ID" = js_coalesce (get p "ID") (num (Z.of_nat idx + 1))
  /\ get p' "isNew" = js_coalesce (get p "isNew") (VBool false)
  /\ (forall k, k <> "Code" -> k <> "Qty" -> k <> "ID" -> k <> "isNew" ->
        get p' k = get p k).

Definition is_storage_read (e : event) : bool :=
  match e with StorageGet _ => true | _ => false end.

(** The record [quotePizzaOrder] stores for the validation [v], at time
    [now], with the priced answer [priced]. *)
Definition new_quote (v : Validated) (now : Z) (priced : value) : Quote :=
  {| createdAt := now;
     storeId := v_storeId v;
     serviceMethod := v_serviceMethod v;
     storeHint :=
       VObj [("StoreID", get (v_store v) "StoreID");
             ("Name", get (v_store v) "Name");
             ("AddressDescription", get (v_store v) "AddressDescription")];
     pricedDraft := priced |}.

(** The world after the token [token] was drawn in [w] and [q] was stored
    under it. *)
Definition stored_world (token : string) (q : Quote) (w : World) : World :=
  log (StorageSet (quote_key token) q)
    (with_storage (<[quote_key token := q]> (storage (drew_uuid token w)))
       (drew_uuid token w)).

Definition quote_success (token : string) (quote : value) : value :=
  VObj [("ok", VBool true);
        ("orderToken", VStr token);
        ("quote", quote);
        ("message", VStr quote_message)].

(** ** Further example documents *)

Definition doc_priced_null_product : string :=
  "{" +:+ q "Order" +:+ ":{" +:+ q "Products" +:+ ":[null]}}".
Definition val_priced_null_product : value :=
  VObj [("Order", VObj [("Products", VArr [VNull])])].

Definition doc_menu : string :=
  "{" +:+ q "Products" +:+ ":{" +:+ q "14SCREEN" +:+ ":{" +:+ q "Name" +:+ ":"
  +:+ q "Large Hand Tossed Pizza" +:+ "}," +:+ q "12SCREEN" +:+ ":{"
  +:+ q "Name" +:+ ":" +:+ q "Medium Hand Tossed Pizza" +:+ ","
  +:+ q "Description" +:+ ":" +:+ q "Classic" +:+ "}},"
  +:+ q "Categories" +:+ ":{" +:+ q "Food" +:+ ":{}}}".
Definition val_menu : value :=
  VObj [("Products",
         VObj [("14SCREEN", VObj [("Name", VStr "Large Hand Tossed Pizza")]);
               ("12SCREEN", VObj [("Name", VStr "Medium Hand Tossed Pizza");
                                  ("Description", VStr "Classic")])]);
        ("Categories", VObj [("Food", VObj [])])].

(** [demo_runtime] with the further documents. *)
Definition menu_runtime : Runtime := {|
  JSON_parse := fun s =>
    find_document s
      ((doc_priced_null_product, val_priced_null_product)
       :: (doc_menu, val_menu) :: demo_documents);
  StringToNumber := StringToNumber demo_runtime;
  NumberToString := NumberToString demo_runtime;
|}.


Definition menu_query : list (string * value) :=
  [("lang", VStr "en"); ("structured", VStr "true")].

Definition menu_payload (storeId search : value) : value :=
  VObj [("storeId", storeId); ("search", search)].

(** * Properties *)

(** ** The model runs: the two scenarios of the specification *)

Example buildStreetName_examples :
  buildStreetName "93 Monitor St" = "Monitor St"
  /\ buildStreetName " 1 Main St Apt 4B " = "Main St"
  /\ buildStreetName "12 Broadway #5" = "Broadway"
  /\ buildStreetName "221" = "221".
Proof. repeat split. Qed.

Example quote_then_place :
  let env := demo_env [ok_response doc_stores; ok_response doc_status_zero;
                       ok_response doc_priced; ok_response doc_placed] in
  let token := "9b2f0c1e-7d4a-4c55-8e21-0a1b2c3d4e5f" in
  let quoted := quotePizzaOrder demo_runtime env demo_payload (empty_world 1000000) in
  let placed :=
    placePizzaOrder demo_runtime env
      (VObj [("orderToken", VStr token); ("confirm", VBool true)]) quoted.2 in
  (exists res, quoted.1 = Ok res
               /\ get res "ok" = VBool true
               /\ get res "orderToken" = VStr token
               /\ get (get res "quote") "total" = VNum (Fin (1999 # 100)))
  /\ is_Some (storage quoted.2 !! quote_key token)
  /\ (exists res, placed.1 = Ok res /\ get res "result" = val_placed)
  /\ storage placed.2 !! quote_key token = None.
Proof.
  split_and!.
  - eexists. split_and!; vm_compute; reflexivity.
  - vm_compute. eexists. reflexivity.
  - eexists. split_and!; vm_compute; reflexivity.
  - vm_compute. reflexivity.
Qed.

(** ** Strings *)

Lemma starts_with_app (b c : string) : starts_with b (b +:+ c) = true.
Proof.
  induction b as [|a b IH]; [reflexivity|].
  change (String a b +:+ c) with (String a (b +:+ c)). simpl.
  rewrite IH. by rewrite bool_decide_eq_true_2.
Qed.

Lemma includes_app (a b c : string) : includes (a +:+ b +:+ c) b = true.
Proof.
  induction a as [|x a IH].
  - change ("" +:+ b +:+ c) with (b +:+ c).
    destruct b; simpl; [destruct c; reflexivity|].
    rewrite bool_decide_eq_true_2 by done. simpl.
    by rewrite starts_with_app.
  - change (String x a +:+ b +:+ c) with (String x (a +:+ b +:+ c)).
    simpl. rewrite IH. apply orb_true_r.
Qed.

(** ** Service method *)

(** C9 (amended): an input that is falsy (absent, [null], the empty string,
    [0], [false]) defaults to ['Delivery'].  A truthy input is converted to
    a string; its key is that string without the surrounding ASCII
    whitespace and with the letters [a] to [z] in upper case.  The key
    [DELIVERY] gives ['Delivery'] and the key [CARRYOUT] gives
    ['Carryout']; an input of ASCII text with any other key fails with the
    validation error whose message names that key.  A truthy input that
    cannot be converted to a string (an object with an own [toString]
    property, or an array that holds one) raises a TypeError. *)
Theorem normalizeServiceMethod_cases (rt : Runtime) (v : value) :
  (truthy v = false -> normalizeServiceMethod rt v = Ok "Delivery") /\
  (truthy v = true -> stringifiable v = false ->
   normalizeServiceMethod rt v = Throw TypeError) /\
  (truthy v = true -> stringifiable v = true ->
   (service_key rt v = "DELIVERY" -> normalizeServiceMethod rt v = Ok "Delivery") /\
   (service_key rt v = "CARRYOUT" -> normalizeServiceMethod rt v = Ok "Carryout") /\
   (ascii_text (to_string rt v) = true ->
    service_key rt v <> "DELIVERY" -> service_key rt v <> "CARRYOUT" ->
    normalizeServiceMethod rt v
      = Throw (UserError (BadServiceMethod (service_key rt v)))
    /\ includes (message (BadServiceMethod (service_key rt v)))
         (service_key rt v) = true)).
Proof.
  unfold normalizeServiceMethod, toString_method, service_key, js_or.
  split_and!.
  - intros ->. reflexivity.
  - intros -> ->. reflexivity.
  - intros -> ->. cbn [bind_result]. split_and!.
    + intros ->. reflexivity.
    + intros ->. reflexivity.
    + intros _ Hd Hc. split; [|apply includes_app].
      repeat case_bool_decide; congruence.
Qed.

Lemma normalizeServiceMethod_cases_witness :
  normalizeServiceMethod demo_runtime (VStr " carryOut ") = Ok "Carryout"
  /\ normalizeServiceMethod demo_runtime (VStr "pickup")
     = Throw (UserError (BadServiceMethod "PICKUP"))
  /\ normalizeServiceMethod demo_runtime VNull = Ok "Delivery"
  /\ normalizeServiceMethod demo_runtime (VObj [("toString", VStr "x")])
     = Throw TypeError.
Proof.
  split_and!.
  - destruct (normalizeServiceMethod_cases demo_runtime (VStr " carryOut "))
      as (_ & _ & H).
    destruct (H eq_refl eq_refl) as (_ & H2 & _). apply H2. reflexivity.
  - destruct (normalizeServiceMethod_cases demo_runtime (VStr "pickup"))
      as (_ & _ & H).
    destruct (H eq_refl eq_refl) as (_ & _ & H3).
    destruct H3 as [H3 _]; [reflexivity | discriminate | discriminate | exact H3].
  - destruct (normalizeServiceMethod_cases demo_runtime VNull) as (H & _).
    apply H. reflexivity.
  - destruct (normalizeServiceMethod_cases demo_runtime
                (VObj [("toString", VStr "x")])) as (_ & H & _).
    apply H; reflexivity.
Defined.

(** C9 (as stated) fails: the empty string matches neither [DELIVERY] nor
    [CARRYOUT], yet it is accepted as ['Delivery'] instead of failing. *)
Lemma normalizeServiceMethod_empty_string_accepted :
  service_key demo_runtime (VStr "") <> "DELIVERY"
  /\ service_key demo_runtime (VStr "") <> "CARRYOUT"
  /\ normalizeServiceMethod demo_runtime (VStr "") = Ok "Delivery".
Proof. repeat split; discriminate. Qed.

(** ** Quote summary *)

Lemma get_falsy (v : value) (k : string) : truthy v = false -> get v k = VUndef.
Proof. destruct v; simpl; congruence. Qed.

Lemma truthy_not_nullish (v : value) : truthy v = true -> nullish v = false.
Proof. destruct v; simpl; congruence. Qed.

Lemma summary_items_ok (products : list value) :
  Forall (fun p => nullish p = false) products ->
  summary_items products = Ok (map code_qty products).
Proof.
  induction 1 as [|p r Hp _ IH]; [reflexivity|].
  simpl. unfold summary_item. rewrite Hp. simpl. rewrite IH. reflexivity.
Qed.

(** The last operand of the chain reads the same field as the first. *)
Lemma fallback_is_customer (priced : value) :
  get (get (get priced "Order") "Amounts") "Customer"
  = get (amounts_of priced) "Customer".
Proof.
  unfold amounts_of, order_of, js_or.
  destruct (truthy (get priced "Order")) eqn:HO.
  - destruct (truthy (get (get priced "Order") "Amounts")) eqn:HA; [reflexivity|].
    by rewrite (get_falsy _ "Customer" HA).
  - rewrite (get_falsy _ "Amounts" HO). reflexivity.
Qed.

Lemma quote_total_first_truthy (priced : value) :
  quote_total priced (amounts_of priced)
  = match first_truthy (amounts_of priced) total_priority with
    | Some v => v
    | None => get (amounts_of priced) "Customer"
    end.
Proof.
  unfold quote_total. rewrite fallback_is_customer.
  generalize (amounts_of priced) as a. intros a.
  unfold total_priority, first_truthy, js_or.
  repeat match goal with
         | |- context [truthy (get a ?k)] =>
             destruct (truthy (get a k)) eqn:?; simpl
         end; try reflexivity; congruence.
Qed.

Lemma first_truthy_is_truthy (a : value) (names : list string) (v : value) :
  first_truthy a names = Some v -> truthy v = true.
Proof.
  induction names as [|k r IH]; simpl; [discriminate|].
  destruct (truthy (get a k)) eqn:E; [|exact IH].
  intros [= <-]. exact E.
Qed.

(** C8 (amended): for a priced response whose product entries are neither
    [null] nor [undefined], [summarizeQuote] returns the store id, the
    service method and the (code, qty) pairs of the order's products, and
    as the total the first truthy value among the fields Customer, Payment,
    Order, Total, Amount of the amounts object; when none of them is truthy
    the total is the value of Customer unless that is absent or [null].
    The total is [null] exactly when no field is truthy and Customer is
    absent or [null]. *)
Theorem summarizeQuote_total (priced : value) :
  Forall (fun p => nullish p = false)
    (as_array (get (order_of priced) "Products")) ->
  exists s,
    summarizeQuote priced = Ok s
    /\ get s "storeId" = get (order_of priced) "StoreID"
    /\ get s "serviceMethod" = get (order_of priced) "ServiceMethod"
    /\ get s "items"
       = VArr (map code_qty (as_array (get (order_of priced) "Products")))
    /\ get s "total"
       = match first_truthy (amounts_of priced) total_priority with
         | Some v => v
         | None => js_coalesce (get (amounts_of priced) "Customer") VNull
         end
    /\ (get s "total" = VNull <->
        first_truthy (amounts_of priced) total_priority = None
        /\ nullish (get (amounts_of priced) "Customer") = true).
Proof.
  intros Hp. unfold summarizeQuote.
  fold (order_of priced). fold (amounts_of priced).
  rewrite (summary_items_ok _ Hp). simpl bind_result.
  eexists. split; [reflexivity|].
  assert (Htot :
    js_coalesce (quote_total priced (amounts_of priced)) VNull
    = match first_truthy (amounts_of priced) total_priority with
      | Some v => v
      | None => js_coalesce (get (amounts_of priced) "Customer") VNull
      end).
  { rewrite quote_total_first_truthy.
    destruct (first_truthy (amounts_of priced) total_priority) as [v|] eqn:E;
      [|reflexivity].
    unfold js_coalesce.
    by rewrite (truthy_not_nullish _ (first_truthy_is_truthy _ _ _ E)). }
  split; [reflexivity|]. split; [reflexivity|]. split; [reflexivity|].
  change (get _ "total") with
    (js_coalesce (quote_total priced (amounts_of priced)) VNull).
  rewrite Htot. split; [reflexivity|].
  destruct (first_truthy (amounts_of priced) total_priority) as [v|] eqn:E.
  - apply first_truthy_is_truthy in E. split.
    + intros ->. simpl in E. discriminate E.
    + intros [? _]. discriminate.
  - unfold js_coalesce.
    destruct (nullish (get (amounts_of priced) "Customer")) eqn:N.
    + split; auto.
    + split.
      * intros H. rewrite H in N. simpl in N. discriminate N.
      * intros [_ ?]. discriminate.
Qed.

Lemma summarizeQuote_total_witness :
  exists s,
    summarizeQuote val_priced = Ok s
    /\ get s "total" = VNum (Fin (1999 # 100)).
Proof.
  destruct (summarizeQuote_total val_priced) as (s & Hs & _ & _ & _ & Ht & _).
  - constructor.
  - exists s. split; [exact Hs | exact Ht].
Defined.

(** C8 (as stated) fails: with Customer present and equal to [0] and
    Payment equal to [19.99], the first present field of the priority list
    is Customer, but the total returned is the Payment value; and with
    Amount alone present and equal to [0], the total is [null] although a
    field of the table is present. *)
Lemma summarizeQuote_skips_present_zero :
  let zero_customer :=
    VObj [("Order", VObj [("Amounts",
            VObj [("Customer", num 0); ("Payment", VNum (Fin (1999 # 100)))])])] in
  let zero_amount :=
    VObj [("Order", VObj [("Amounts", VObj [("Amount", num 0)])])] in
  first_present (amounts_of zero_customer) total_priority = num 0
  /\ (exists s, summarizeQuote zero_customer = Ok s
                /\ get s "total" = VNum (Fin (1999 # 100)))
  /\ first_present (amounts_of zero_amount) total_priority = num 0
  /\ (exists s, summarizeQuote zero_amount = Ok s /\ get s "total" = VNull).
Proof.
  repeat split; try reflexivity; eexists; split; reflexivity.
Qed.

(** ** Store resolution *)











(** ** The HTTP client *)

Lemma jitter_bounds (r : Q) : (0 <= r)%Q -> (r < 1)%Q -> 0 <= jitter_of r < 200.
Proof.
  intros H0 H1. unfold jitter_of. split.
  - change 0 with (Qfloor 0). apply Qfloor_resp_le.
    apply Qmult_le_0_compat; [exact H0 | discriminate].
  - rewrite Zlt_Qlt. eapply Qle_lt_trans; [apply Qfloor_le|].
    change (inject_Z 200) with (1 * 200)%Q.
    apply Qmult_lt_compat_r; [reflexivity | exact H1].
Qed.

Lemma backoff_base_increasing (n : Z) : 1 <= n -> backoff_base n < backoff_base (n + 1).
Proof.
  intros Hn. unfold backoff_base.
  replace (n + 1 - 1) with (Z.succ (n - 1)) by lia.
  rewrite Z.pow_succ_r by lia.
  assert (0 < 2 ^ (n - 1)) by (apply Z.pow_pos_nonneg; lia). lia.
Qed.

Lemma ok_not_retryable (r : Response) : ok r = true -> retryable r = false.
Proof. unfold ok, retryable. lia. Qed.

Lemma fetch_attempts_first (rt : Runtime) (env : Env) (req : Request) (n : nat)
  (attempt : Z) (lastErr : option exn) (w : World) :
  fetch_attempts rt env (S n) attempt req lastErr w =
    match upstream env (fetches w) req with
    | Rejects => (Throw FetchRejected, fetched req w)
    | Responds r =>
        match response_data rt r with
        | Throw e => (Throw e, fetched req w)
        | Ok data =>
            if ok r then (Ok data, fetched req w)
            else if negb (retryable r) || (attempt =? maxAttempts)
            then (Throw (RequestFailed (status r) (statusText r) data),
                  fetched req w)
            else
              fetch_attempts rt env n (attempt + 1) req
                (Some (RequestFailed (status r) (statusText r) data))
                (slept (backoff_base attempt
                        + jitter_of (random_source env (randoms w)))
                   (drew_random (fetched req w)))
        end
    end.
Proof.
  cbn [fetch_attempts]. unfold bind at 1. unfold fetch.
  destruct (upstream env (fetches w) req) as [r|]; [|reflexivity].
  unfold bind at 1. unfold lift.
  destruct (response_data rt r) as [data|e]; [|reflexivity].
  destruct (ok r); [reflexivity|].
  destruct (negb (retryable r) || (attempt =? maxAttempts)); reflexivity.
Qed.

Lemma delay_before_first (env : Env) (w : World) (attempt : Z) :
  delay_before env w attempt 0
  = backoff_base attempt + jitter_of (random_source env (randoms w)).
Proof.
  unfold delay_before, backoff_base, jitter_of.
  by rewrite Nat.add_0_r, Z.add_0_r.
Qed.

Lemma delay_before_shift (env : Env) (w w2 : World) (attempt : Z) (i : nat) :
  randoms w2 = S (randoms w) ->
  delay_before env w2 (attempt + 1) i = delay_before env w attempt (S i).
Proof.
  intros Hr. unfold delay_before. rewrite Hr.
  replace (attempt + 1 + Z.of_nat i - 1) with (attempt + Z.of_nat (S i) - 1) by lia.
  by replace (S (randoms w) + i)%nat with (randoms w + S i)%nat by lia.
Qed.

Ltac close_run Hup :=
  simpl; split_and!; try lia; try done;
  lazymatch goal with
  | |- final_outcome _ _ _ =>
      unfold final_outcome; rewrite ?Nat.add_0_r, Hup;
      repeat match goal with
             | H : response_data _ _ = _ |- _ => rewrite H
             | H : ok _ = _ |- _ => rewrite H
             end; done
  | |- forall _, _ =>
      let r0 := fresh "r" in
      let H0 := fresh "H" in
      intros r0 ? H0 ? ? ?; rewrite ?Nat.add_0_r, Hup in H0;
      first [ discriminate H0 | injection H0 as <-; congruence ]
  end.

Lemma fetch_attempts_run (rt : Runtime) (env : Env) (req : Request) (n : nat) :
  forall (attempt : Z) (lastErr : option exn) (w w' : World) (res : result value),
    attempt + Z.of_nat n = maxAttempts ->
    fetch_attempts rt env (S n) attempt req lastErr w = (res, w') ->
    exists k : nat,
      (k <= n)%nat
      /\ fetches w' = (fetches w + S k)%nat
      /\ randoms w' = (randoms w + k)%nat
      /\ storage w' = storage w
      /\ uuids w' = uuids w
      /\ trace w' = trace w ++ retry_log req (map (delay_before env w attempt) (seq 0 k))
      /\ (forall i, (i < k)%nat ->
            exists r, upstream env (fetches w + i)%nat req = Responds r
                      /\ ok r = false /\ retryable r = true)
      /\ final_outcome rt (upstream env (fetches w + k)%nat req) res
      /\ (forall r data,
            upstream env (fetches w + k)%nat req = Responds r ->
            response_data rt r = Ok data ->
            ok r = false -> retryable r = true -> k = n).
Proof.
  induction n as [|n IH]; intros attempt lastErr w w' res Hat Hrun;
    rewrite fetch_attempts_first in Hrun;
    destruct (upstream env (fetches w) req) as [r|] eqn:Hup;
    [ destruct (response_data rt r) as [data|e] eqn:Hd;
      [ destruct (ok r) eqn:Hok;
        [ | destruct (retryable r) eqn:Hre; simpl negb in Hrun; cbn [orb] in Hrun ]
      | ]
    | | destruct (response_data rt r) as [data|e] eqn:Hd;
      [ destruct (ok r) eqn:Hok;
        [ | destruct (retryable r) eqn:Hre; simpl negb in Hrun; cbn [orb] in Hrun ]
      | ]
    | ];
    try (injection Hrun as <- <-; exists 0%nat; close_run Hup).
  - replace (attempt =? maxAttempts) with true in Hrun by lia.
    injection Hrun as <- <-. exists 0%nat. close_run Hup.
  - replace (attempt =? maxAttempts) with false in Hrun by lia.
    apply IH in Hrun; [|lia].
    destruct Hrun as (k & Hk & Hf & Hr & Hs & Hu & Ht & Hprev & Hfin & Hlast).
    exists (S k). simpl in Hf, Hr, Hs, Hu, Ht.
    change (fetches (slept _ (drew_random (fetched req w))))
      with (S (fetches w)) in Hprev, Hfin, Hlast.
    split_and!; try lia; try done.
    + rewrite Ht, <- !app_assoc. f_equal.
      cbn [seq map retry_log]. rewrite delay_before_first. simpl. do 2 f_equal.
      rewrite <- seq_shift, map_map. f_equal.
      apply map_ext. intros i. by apply delay_before_shift.
    + intros [|i] Hi.
      * exists r. by rewrite Nat.add_0_r.
      * destruct (Hprev i) as (r' & Hr' & ?); [lia|].
        exists r'. split; [|done].
        by replace (fetches w + S i)%nat with (S (fetches w) + i)%nat by lia.
    + by replace (fetches w + S k)%nat with (S (fetches w) + k)%nat by lia.
    + intros r0 d0 Hr0 Hd0 Hok0 Hre0. f_equal.
      apply (Hlast r0 d0); try done.
      by replace (S (fetches w) + k)%nat with (fetches w + S k)%nat by lia.
Qed.

(** C6: one call of the HTTP client makes at most 4 attempts; an attempt is
    followed by another only if it was answered with status 429 or 5xx, so
    a success or any other failure status ends the call; the wait before
    retry [n] is [250 * 2^(n-1)] milliseconds plus a jitter in [[0, 200)],
    and that minimum grows strictly with [n]; when the fourth attempt
    fails too, the error raised carries the status, status text and parsed
    body of that last response. *)
Theorem dominosFetchJson_retry_policy (rt : Runtime) (env : Env)
  (path method : string) (query : list (string * value)) (body : value)
  (w w' : World) (res : result value) :
  (forall i, (0 <= random_source env i)%Q /\ (random_source env i < 1)%Q) ->
  dominosFetchJson rt env path method query body w = (res, w') ->
  let req := request_of rt path method query body in
  exists retries : nat,
    (retries <= 3)%nat
    /\ fetches w' = (fetches w + S retries)%nat
    /\ (forall i, (i < retries)%nat ->
          exists r, upstream env (fetches w + i)%nat req = Responds r
                    /\ (status r = 429 \/ 500 <= status r <= 599))
    /\ (forall i r, (i <= retries)%nat ->
          upstream env (fetches w + i)%nat req = Responds r ->
          ok r = true \/ ~ (status r = 429 \/ 500 <= status r <= 599) ->
          i = retries)
    /\ trace w' = trace w ++ retry_log req (map (delay_before env w 1) (seq 0 retries))
    /\ (forall i, exists jitter,
          0 <= jitter < 200
          /\ delay_before env w 1 i = 250 * 2 ^ (Z.of_nat (S i) - 1) + jitter)
    /\ (forall n, 1 <= n -> 250 * 2 ^ (n - 1) < 250 * 2 ^ (n + 1 - 1))
    /\ final_outcome rt (upstream env (fetches w + retries)%nat req) res
    /\ (forall r data,
          upstream env (fetches w + retries)%nat req = Responds r ->
          response_data rt r = Ok data ->
          ok r = false ->
          status r = 429 \/ 500 <= status r <= 599 ->
          retries = 3%nat)
    /\ (retries = 3%nat ->
        forall r data,
          upstream env (fetches w + 3)%nat req = Responds r ->
          ok r = false ->
          response_data rt r = Ok data ->
          res = Throw (RequestFailed (status r) (statusText r) data)).
Proof.
  intros Hrand Hrun req. unfold dominosFetchJson in Hrun. fold req in Hrun.
  change (Z.to_nat maxAttempts) with 4%nat in Hrun.
  apply fetch_attempts_run in Hrun; [|reflexivity].
  destruct Hrun as (k & Hk & Hf & _ & _ & _ & Ht & Hprev & Hfin & Hlast).
  assert (Hretry : forall r, retryable r = true
                             <-> (status r = 429 \/ 500 <= status r <= 599)).
  { intros r. unfold retryable. lia. }
  exists k. split_and!; try done.
  - intros i Hi. destruct (Hprev i Hi) as (r & Hr & _ & Hre).
    exists r. split; [exact Hr | by apply Hretry].
  - intros i r Hi Hr Hstop.
    destruct (decide (i = k)) as [|Hne]; [done|].
    destruct (Hprev i) as (r' & Hr' & Hok & Hre); [lia|].
    rewrite Hr in Hr'. injection Hr' as <-.
    destruct Hstop as [Hok'|Hn]; [congruence|].
    by apply Hretry in Hre.
  - intros i. exists (jitter_of (random_source env (randoms w + i)%nat)).
    split; [apply jitter_bounds; apply Hrand|].
    unfold delay_before, jitter_of. do 3 f_equal. lia.
  - intros n Hn. apply (backoff_base_increasing n Hn).
  - intros r data Hr Hd Hok Hst. apply (Hlast r data); try done.
    by apply Hretry.
  - intros -> r data Hr Hok Hd. unfold final_outcome in Hfin.
    by rewrite Hr, Hd, Hok in Hfin.
Qed.

Lemma dominosFetchJson_retry_policy_witness :
  let env := demo_env [busy_response; busy_response; busy_response; busy_response] in
  let w := empty_world 0 in
  let run := dominosFetchJson demo_runtime env "/power/place-order" "POST" [] val_priced w in
  run.1 = Throw (RequestFailed 503 "Service Unavailable" val_error)
  /\ fetches run.2 = 4%nat
  /\ sleeps (trace run.2) = [350; 600; 1100].
Proof.
  intros env w run.
  destruct (dominosFetchJson_retry_policy demo_runtime env
              "/power/place-order" "POST" [] val_priced w run.2 run.1)
    as (k & Hk & Hf & Hprev & Hstop & Ht & Hd & Hinc & Hfin & _ & Hex).
  - intros i. split; [discriminate | reflexivity].
  - apply surjective_pairing.
  - assert (k = 3%nat) as -> by (vm_compute in Hf; lia).
    split_and!.
    + apply (Hex eq_refl (json_response 503 "Service Unavailable" doc_error) val_error);
        reflexivity.
    + exact Hf.
    + rewrite Ht. reflexivity.
Defined.

(** ** Sequencing *)

Lemma bind_lift {A B} (r : result A) (k : A -> M B) (w : World) :
  bind (lift r) k w = match r with
                      | Ok a => k a w
                      | Throw e => (Throw e, w)
                      end.
Proof. unfold bind, lift. by destruct r. Qed.

Lemma bind_ok {A B} (m : M A) (k : A -> M B) (w w' : World) (b : B) :
  bind m k w = (Ok b, w') ->
  exists a w1, m w = (Ok a, w1) /\ k a w1 = (Ok b, w').
Proof.
  unfold bind. destruct (m w) as [[a|e] w1]; [eauto | discriminate].
Qed.

Lemma retry_log_none (p : event -> bool) (req : Request) (delays : list Z) :
  p (Fetch req) = false -> (forall ms, p (Sleep ms) = false) ->
  none_of p (retry_log req delays).
Proof.
  intros Hf Hs. induction delays as [|d r IH]; simpl.
  - by repeat constructor.
  - constructor; [exact Hf|]. constructor; [apply Hs | exact IH].
Qed.

Lemma none_of_count (p : event -> bool) (evs : list event) :
  none_of p evs -> count_events p evs = 0%nat.
Proof.
  unfold count_events. induction 1 as [|e r He _ IH]; [reflexivity|].
  rewrite filter_cons. by rewrite decide_False by congruence.
Qed.

Lemma count_events_app (p : event -> bool) (a b : list event) :
  count_events p (a ++ b) = (count_events p a + count_events p b)%nat.
Proof. unfold count_events. by rewrite filter_app, length_app. Qed.

Lemma dominosFetchJson_frame (rt : Runtime) (env : Env) (path method : string)
  (query : list (string * value)) (body : value) (w w' : World)
  (res : result value) :
  dominosFetchJson rt env path method query body w = (res, w') ->
  storage w' = storage w
  /\ uuids w' = uuids w
  /\ (fetches w < fetches w')%nat
  /\ exists delays,
       trace w' = trace w ++ retry_log (request_of rt path method query body) delays.
Proof.
  intros Hrun. unfold dominosFetchJson in Hrun.
  change (Z.to_nat maxAttempts) with 4%nat in Hrun.
  apply fetch_attempts_run in Hrun; [|reflexivity].
  destruct Hrun as (k & _ & Hf & _ & Hs & Hu & Ht & _).
  split_and!; [done | done | lia | eauto].
Qed.

(** ** Input validation *)

Lemma assertString_cases (v : value) (name : string) :
  match assertString v name with
  | Ok s => blank_field v = false /\ exists raw, v = VStr raw /\ s = trim raw
  | Throw e => blank_field v = true /\ e = UserError (RequiredString name)
  end.
Proof.
  destruct v; simpl; try done.
  destruct (is_empty (trim s)); eauto.
Qed.

Lemma buildAddress_cases (a1 a2 c r p : value) :
  match buildAddress a1 a2 c r p with
  | Ok _ => blank_field a1 = false /\ blank_field c = false
            /\ blank_field r = false /\ blank_field p = false
  | Throw e => exists name, e = UserError (RequiredString name)
  end.
Proof.
  unfold buildAddress, bind_result.
  pose proof (assertString_cases a1 "addressLine1") as H1.
  destruct (assertString a1 "addressLine1"); [|destruct H1; eauto].
  pose proof (assertString_cases c "city") as H2.
  destruct (assertString c "city"); [|destruct H2; eauto].
  pose proof (assertString_cases r "region") as H3.
  destruct (assertString r "region"); [|destruct H3; eauto].
  pose proof (assertString_cases p "postalCode") as H4.
  destruct (assertString p "postalCode"); [|destruct H4; eauto].
  by destruct H1, H2, H3, H4.
Qed.

Lemma normalizeServiceMethod_result (rt : Runtime) (v : value) :
  stringifiable v = true ->
  match normalizeServiceMethod rt v with
  | Ok _ => unrecognized_service_method rt v = false
  | Throw e => exists raw, e = UserError (BadServiceMethod raw)
  end.
Proof.
  intros Hv.
  unfold normalizeServiceMethod, toString_method, unrecognized_service_method,
    service_key, js_or.
  destruct (truthy v); [|reflexivity]. rewrite Hv. simpl.
  repeat case_bool_decide; simpl; eauto.
Qed.

Lemma buildProduct_cases (rt : Runtime) (idx : nat) (p : value) :
  match buildProduct rt idx p with
  | Ok _ => bad_item rt p = false
  | Throw e => exists u, e = UserError u /\ is_validation_error u = true
  end.
Proof.
  unfold buildProduct, bad_item.
  destruct (negb (truthy p) || negb (typeof_object p)); [eauto|].
  destruct (get p "Code") as [| | | |code| |]; eauto.
  simpl blank_field.
  destruct (is_empty (trim code)); [eauto|].
  destruct (to_number rt (get p "Qty")) as [| |qty]; eauto.
  simpl. destruct (Qle_bool qty 0); eauto.
Qed.

Lemma map_products_cases (rt : Runtime) (items : list value) :
  forall idx,
    match map_products rt idx items with
    | Ok _ => Forall (fun p => bad_item rt p = false) items
    | Throw e => exists u, e = UserError u /\ is_validation_error u = true
    end.
Proof.
  induction items as [|p r IH]; intros idx; simpl; [constructor|].
  pose proof (buildProduct_cases rt idx p) as Hp.
  destruct (buildProduct rt idx p); simpl; [|exact Hp].
  specialize (IH (S idx)).
  destruct (map_products rt (S idx) r); simpl; [|exact IH].
  by constructor.
Qed.

Lemma buildProducts_cases (rt : Runtime) (items : value) :
  match buildProducts rt items with
  | Ok _ => exists l, items = VArr l /\ l <> []
                      /\ Forall (fun p => bad_item rt p = false) l
  | Throw e => exists u, e = UserError u /\ is_validation_error u = true
  end.
Proof.
  unfold buildProducts.
  destruct items as [| | | | |l|]; eauto.
  destruct l as [|p r]; [eauto|].
  pose proof (map_products_cases rt (p :: r) 0) as H.
  destruct (map_products rt 0 (p :: r)); [|exact H].
  exists (p :: r). by split_and!.
Qed.

Ltac raise_validation :=
  eexists; split; [|reflexivity]; first [reflexivity | assumption].

Lemma quoteValidate_malformed (rt : Runtime) (env : Env) (payload : value)
  (w : World) :
  stringifiable (get payload "serviceMethod") = true ->
  malformed rt payload ->
  exists e,
    is_validation_error e = true
    /\ quoteValidate rt env payload w = (Throw (UserError e), w).
Proof.
  intros Hconv Hbad. unfold quoteValidate.
  rewrite bind_lift.
  pose proof (normalizeServiceMethod_result rt (get payload "serviceMethod") Hconv)
    as Hsm.
  destruct (normalizeServiceMethod rt (get payload "serviceMethod")) as [sm|e];
    [|destruct Hsm as [raw ->]; raise_validation].
  rewrite bind_lift.
  pose proof (buildAddress_cases (get payload "addressLine1")
                (get payload "addressLine2") (get payload "city")
                (get payload "region") (get payload "postalCode")) as Haddr.
  destruct (buildAddress _ _ _ _ _) as [address|e];
    [|destruct Haddr as [name ->]; raise_validation].
  destruct Haddr as (Ha1 & Hc & Hr & Hp).
  rewrite bind_lift.
  pose proof (assertString_cases (get payload "phone") "phone") as Hphone.
  destruct (assertString (get payload "phone") "phone") as [phone|e];
    [|destruct Hphone as [_ ->]; raise_validation].
  rewrite bind_lift.
  pose proof (assertString_cases (get payload "email") "email") as Hemail.
  destruct (assertString (get payload "email") "email") as [email|e];
    [|destruct Hemail as [_ ->]; raise_validation].
  rewrite bind_lift.
  pose proof (assertString_cases (get payload "itemsJson") "itemsJson") as Hitems.
  destruct (assertString (get payload "itemsJson") "itemsJson") as [itemsJson|e];
    [|destruct Hitems as [_ ->]; raise_validation].
  destruct Hitems as (Hfilled & raw & Hraw & ->).
  rewrite bind_lift. unfold safeJsonParse.
  destruct (JSON_parse rt (trim raw)) as [items|] eqn:Hparse; [|raise_validation].
  rewrite bind_lift.
  pose proof (buildProducts_cases rt items) as Hprod.
  destruct (buildProducts rt items) as [products|e];
    [|destruct Hprod as (u & -> & Hu); raise_validation].
  destruct Hprod as (l & -> & Hne & Hall).
  exfalso.
  destruct Hbad as [k Hk Hblank|Hblank|s Hs _ Hnone|s parsed Hs _ Hsome Hempty
                   |s l' p Hs _ Hl Hin Hp'|_ Hun].
  - destruct Hphone as [Hphone _], Hemail as [Hemail _].
    simpl in Hk. destruct Hk as [<-|[<-|[<-|[<-|[<-|[<-|[]]]]]]]; congruence.
  - congruence.
  - rewrite Hraw in Hs. injection Hs as <-. congruence.
  - rewrite Hraw in Hs. injection Hs as <-.
    rewrite Hparse in Hsome. injection Hsome as <-.
    by destruct l.
  - rewrite Hraw in Hs. injection Hs as <-.
    rewrite Hparse in Hl. injection Hl as <-.
    rewrite Forall_forall in Hall. apply list_elem_of_In in Hin.
    specialize (Hall p Hin). congruence.
  - congruence.
Qed.

(** A service method that cannot be converted to a string stops the quote
    at its first step. *)
Lemma quoteValidate_unconvertible (rt : Runtime) (env : Env) (payload : value)
  (w : World) :
  stringifiable (get payload "serviceMethod") = false ->
  quoteValidate rt env payload w = (Throw TypeError, w).
Proof.
  intros Hconv. unfold quoteValidate. rewrite bind_lift.
  unfold normalizeServiceMethod, toString_method, js_or.
  destruct (get payload "serviceMethod"); try discriminate;
    simpl truthy; cbv iota; by rewrite Hconv.
Qed.

(** C3 (amended): a falsy service method (absent, [null], the empty string,
    [0], [false]) is not rejected, it stands for Delivery.  On every other
    malformed input (a required address or contact field that is missing,
    not a string or blank; an [itemsJson] that is missing or blank, or an
    ASCII one that does not parse, that does not hold a non-empty array, or
    that holds an item with a blank Code or a Qty that is not a finite
    positive number; a truthy service method whose ASCII string form
    matches neither [DELIVERY] nor [CARRYOUT]) [quotePizzaOrder] fails and
    leaves the world as it found it: no request was sent, nothing was
    stored, and the log is unchanged.  The failure is a validation error
    whenever converting the service method and the quantities does not
    raise. *)
Theorem quotePizzaOrder_rejects_malformed (rt : Runtime) (env : Env)
  (payload : value) (w : World) :
  malformed rt payload ->
  exists e,
    quotePizzaOrder rt env payload w = (Throw e, w)
    /\ (converts_without_raising rt payload ->
        exists u, e = UserError u /\ is_validation_error u = true).
Proof.
  intros Hbad. unfold quotePizzaOrder, bind.
  destruct (stringifiable (get payload "serviceMethod")) eqn:Hconv.
  - destruct (quoteValidate_malformed rt env payload w Hconv Hbad)
      as (u & Hu & Hrun).
    exists (UserError u). rewrite Hrun. split; [reflexivity|]. eauto.
  - exists TypeError. rewrite (quoteValidate_unconvertible _ _ _ _ Hconv).
    split; [reflexivity|]. unfold converts_without_raising.
    rewrite Hconv. intros [? _]. discriminate.
Qed.

Lemma quotePizzaOrder_rejects_malformed_witness :
  let blank_email :=
    VObj [("addressLine1", VStr "1 Main St"); ("city", VStr "New York");
          ("region", VStr "NY"); ("postalCode", VStr "10001");
          ("phone", VStr "2125551212"); ("email", VStr "   ");
          ("itemsJson", VStr doc_items); ("serviceMethod", VStr "DELIVERY")] in
  let pickup :=
    VObj [("addressLine1", VStr "1 Main St"); ("city", VStr "New York");
          ("region", VStr "NY"); ("postalCode", VStr "10001");
          ("phone", VStr "2125551212"); ("email", VStr "test@example.com");
          ("itemsJson", VStr doc_items); ("serviceMethod", VStr "pickup")] in
  let env := demo_env [ok_response doc_stores; ok_response doc_status_zero;
                       ok_response doc_priced] in
  let w := empty_world 0 in
  (exists u,
     is_validation_error u = true
     /\ quotePizzaOrder demo_runtime env blank_email w = (Throw (UserError u), w))
  /\ quotePizzaOrder demo_runtime env pickup w
     = (Throw (UserError (BadServiceMethod "PICKUP")), w).
Proof.
  intros blank_email pickup env w. split.
  - destruct (quotePizzaOrder_rejects_malformed demo_runtime env blank_email w)
      as (e & Hrun & Hval).
    + apply (blank_required _ _ "email"); [simpl; tauto | reflexivity].
    + destruct Hval as (u & -> & Hu).
      * split; [reflexivity|]. intros s items [= <-] Hparse.
        vm_compute in Hparse. injection Hparse as <-.
        by repeat constructor.
      * exists u. split; [exact Hu | exact Hrun].
  - destruct (quotePizzaOrder_rejects_malformed demo_runtime env pickup w)
      as (e & Hrun & _).
    + apply service_method_unrecognized; reflexivity.
    + rewrite Hrun. f_equal.
      assert (H : (quotePizzaOrder demo_runtime env pickup w).1
                  = Throw (UserError (BadServiceMethod "PICKUP")))
        by (vm_compute; reflexivity).
      rewrite Hrun in H. exact H.
Defined.

(** C3 (as stated) fails: the empty string is a service method that matches
    neither [DELIVERY] nor [CARRYOUT], yet the quote goes through as a
    Delivery order: three requests are sent and the draft is stored. *)
Lemma quotePizzaOrder_empty_service_method_accepted :
  let payload :=
    VObj [("addressLine1", VStr "1 Main St"); ("city", VStr "New York");
          ("region", VStr "NY"); ("postalCode", VStr "10001");
          ("phone", VStr "2125551212"); ("email", VStr "test@example.com");
          ("itemsJson", VStr doc_items); ("serviceMethod", VStr "")] in
  let env := demo_env [ok_response doc_stores; ok_response doc_status_zero;
                       ok_response doc_priced] in
  let run := quotePizzaOrder demo_runtime env payload (empty_world 1000000) in
  matches_no_service_method demo_runtime (get payload "serviceMethod")
  /\ (exists res, run.1 = Ok res /\ get res "ok" = VBool true)
  /\ fetches run.2 = 3%nat
  /\ count_events is_storage_write (trace run.2) = 1%nat
  /\ is_Some (storage run.2
                !! quote_key "9b2f0c1e-7d4a-4c55-8e21-0a1b2c3d4e5f").
Proof.
  split_and!.
  - split; discriminate.
  - eexists. split; vm_compute; reflexivity.
  - vm_compute. reflexivity.
  - vm_compute. reflexivity.
  - vm_compute. eexists. reflexivity.
Qed.

(** ** Placement *)

Lemma is_true_iff (v : value) : is_true v = true <-> v = VBool true.
Proof. destruct v as [| |[]| | | |]; simpl; split; congruence. Qed.

Lemma assertString_nonblank (raw name : string) :
  trim raw <> "" -> assertString (VStr raw) name = Ok (trim raw).
Proof. simpl. by destruct (trim raw). Qed.

(** C2 (amended): when [confirm] is anything but the literal [true], the
    placement raises and leaves the world as it found it: nothing was read
    from or deleted in storage, no request was sent, the stored quote is
    unchanged.  The error is the confirmation-required error when the
    order token is a non-blank string, and the required-field error for
    [orderToken] otherwise. *)
Theorem placePizzaOrder_requires_confirm (rt : Runtime) (env : Env)
  (payload : value) (w : World) :
  get payload "confirm" <> VBool true ->
  placePizzaOrder rt env payload w
  = (Throw (UserError (if blank_field (get payload "orderToken")
                       then RequiredString "orderToken"
                       else ConfirmationRequired)), w).
Proof.
  intros Hc. unfold placePizzaOrder. rewrite bind_lift.
  pose proof (assertString_cases (get payload "orderToken") "orderToken") as Ht.
  destruct (assertString (get payload "orderToken") "orderToken") as [tok|e].
  - destruct Ht as [-> _].
    destruct (is_true (get payload "confirm")) eqn:E; [|reflexivity].
    by apply is_true_iff in E.
  - by destruct Ht as [-> ->].
Qed.

Lemma placePizzaOrder_requires_confirm_witness :
  placePizzaOrder demo_runtime (demo_env []) (place_payload (VStr "true"))
    (quoted_world 1000500)
  = (Throw (UserError ConfirmationRequired), quoted_world 1000500).
Proof.
  apply (placePizzaOrder_requires_confirm demo_runtime (demo_env [])
           (place_payload (VStr "true")) (quoted_world 1000500)).
  discriminate.
Defined.

(** C2 (as stated) fails: a placement call without an order token and with
    [confirm] false does not raise the confirmation-required error but the
    required-field error for [orderToken]. *)
Lemma placePizzaOrder_missing_token_error :
  let payload := VObj [("confirm", VBool false)] in
  get payload "confirm" <> VBool true
  /\ placePizzaOrder demo_runtime (demo_env []) payload (quoted_world 1000500)
     = (Throw (UserError (RequiredString "orderToken")), quoted_world 1000500)
  /\ RequiredString "orderToken" <> ConfirmationRequired.
Proof. split_and!; [discriminate | reflexivity | discriminate]. Qed.

(** C4: with [confirm] true and a token that resolves to a stored quote
    older than 30 minutes, the placement deletes the record, raises the
    quote-expired error and sends no request: the only effects are the
    storage read and the storage delete. *)
Theorem placePizzaOrder_expired (rt : Runtime) (env : Env) (payload : value)
  (w : World) (raw : string) (saved : Quote) :
  get payload "orderToken" = VStr raw ->
  trim raw <> "" ->
  get payload "confirm" = VBool true ->
  storage w !! quote_key (trim raw) = Some saved ->
  30 * 60 * 1000 < clock w - createdAt saved ->
  exists w',
    placePizzaOrder rt env payload w = (Throw (UserError QuoteExpired), w')
    /\ storage w' = delete (quote_key (trim raw)) (storage w)
    /\ storage w' !! quote_key (trim raw) = None
    /\ fetches w' = fetches w
    /\ trace w' = trace w ++ [StorageGet (quote_key (trim raw));
                              StorageDelete (quote_key (trim raw))].
Proof.
  intros Htok Hne Hc Hsaved Hage.
  unfold placePizzaOrder.
  rewrite bind_lift, Htok, (assertString_nonblank _ _ Hne), Hc. simpl.
  unfold bind, storage_get, Date_now, storage_delete, throw.
  rewrite Hsaved.
  change (clock (log _ w)) with (clock w).
  replace (QUOTE_TTL_MS <? clock w - createdAt saved) with true
    by (unfold QUOTE_TTL_MS; lia).
  eexists. split; [reflexivity|]. simpl.
  split_and!; try reflexivity.
  - apply lookup_delete_eq.
  - by rewrite <- app_assoc.
Qed.

Lemma placePizzaOrder_expired_witness :
  exists w',
    placePizzaOrder demo_runtime (demo_env []) (place_payload (VBool true))
      (quoted_world 2800001)
    = (Throw (UserError QuoteExpired), w')
    /\ storage w' !! quote_key "tok" = None
    /\ fetches w' = 0%nat.
Proof.
  destruct (placePizzaOrder_expired demo_runtime (demo_env [])
              (place_payload (VBool true)) (quoted_world 2800001)
              "tok" demo_quote)
    as (w' & Hrun & _ & Hgone & Hf & _);
    [reflexivity | discriminate | reflexivity | reflexivity | reflexivity |].
  exists w'. split_and!; [exact Hrun | exact Hgone | exact Hf].
Defined.

Lemma placePizzaOrder_unknown_token (rt : Runtime) (env : Env)
  (payload : value) (w : World) (raw : string) :
  get payload "orderToken" = VStr raw ->
  trim raw <> "" ->
  get payload "confirm" = VBool true ->
  storage w !! quote_key (trim raw) = None ->
  placePizzaOrder rt env payload w
  = (Throw (UserError UnknownOrExpiredToken),
     log (StorageGet (quote_key (trim raw))) w).
Proof.
  intros Htok Hne Hc Hnone. unfold placePizzaOrder.
  rewrite bind_lift, Htok, (assertString_nonblank _ _ Hne), Hc. simpl.
  unfold bind, storage_get. by rewrite Hnone.
Qed.

(** What a placement does once the gate, the lookup and the age check have
    passed: the stored draft is sent, and the record is deleted only when
    the upstream call returned. *)
Lemma placePizzaOrder_attempt (rt : Runtime) (env : Env) (payload : value)
  (w : World) (raw : string) (saved : Quote) :
  get payload "orderToken" = VStr raw ->
  trim raw <> "" ->
  get payload "confirm" = VBool true ->
  storage w !! quote_key (trim raw) = Some saved ->
  clock w - createdAt saved <= 30 * 60 * 1000 ->
  let key := quote_key (trim raw) in
  let sent :=
    dominosFetchJson rt env "/power/place-order" "POST" [] (pricedDraft saved)
      (log (StorageGet key) w) in
  placePizzaOrder rt env payload w
  = match sent.1 with
    | Ok placed =>
        (Ok (VObj [("ok", VBool true); ("result", placed);
                   ("note", VStr place_note)]),
         log (StorageDelete key)
           (with_storage (delete key (storage sent.2)) sent.2))
    | Throw e => (Throw e, sent.2)
    end.
Proof.
  intros Htok Hne Hc Hsaved Hage key sent.
  unfold placePizzaOrder.
  rewrite bind_lift, Htok, (assertString_nonblank _ _ Hne), Hc. simpl.
  unfold bind at 1. unfold storage_get. rewrite Hsaved.
  unfold bind at 1. unfold Date_now.
  change (clock (log _ w)) with (clock w).
  replace (QUOTE_TTL_MS <? clock w - createdAt saved) with false
    by (unfold QUOTE_TTL_MS; lia).
  unfold bind at 1. fold key. fold sent.
  destruct sent as [[placed|e] w2]; reflexivity.
Qed.

Lemma placePizzaOrder_success_consumes (rt : Runtime) (env : Env)
  (payload : value) (w w' : World) (raw : string) (saved : Quote)
  (res : value) :
  get payload "orderToken" = VStr raw ->
  trim raw <> "" ->
  get payload "confirm" = VBool true ->
  storage w !! quote_key (trim raw) = Some saved ->
  clock w - createdAt saved <= 30 * 60 * 1000 ->
  placePizzaOrder rt env payload w = (Ok res, w') ->
  storage w' !! quote_key (trim raw) = None.
Proof.
  intros Htok Hne Hc Hsaved Hage Hrun.
  rewrite (placePizzaOrder_attempt rt env payload w raw saved) in Hrun by done.
  destruct (dominosFetchJson _ _ _ _ _ _ _) as [[placed|e] w2]; simpl in Hrun;
    [|discriminate].
  injection Hrun as _ <-. simpl. apply lookup_delete_eq.
Qed.

Lemma placePizzaOrder_failure_keeps (rt : Runtime) (env : Env)
  (payload : value) (w w' : World) (raw : string) (saved : Quote) (e : exn) :
  get payload "orderToken" = VStr raw ->
  trim raw <> "" ->
  get payload "confirm" = VBool true ->
  storage w !! quote_key (trim raw) = Some saved ->
  clock w - createdAt saved <= 30 * 60 * 1000 ->
  placePizzaOrder rt env payload w = (Throw e, w') ->
  storage w' = storage w.
Proof.
  intros Htok Hne Hc Hsaved Hage Hrun.
  rewrite (placePizzaOrder_attempt rt env payload w raw saved) in Hrun by done.
  destruct (dominosFetchJson _ _ _ _ _ _ _) as [[placed|e'] w2] eqn:Hsent;
    simpl in Hrun; [discriminate|].
  injection Hrun as _ <-.
  by apply dominosFetchJson_frame in Hsent as [-> _].
Qed.

(** C1 (the code at the failing input): a quote is stored under the token
    ["tok"], the placement is confirmed and within the time-to-live, and
    the upstream answers place-order with status 400.  The call raises the
    request error and the record is still stored; the same placement call
    made again reads it and sends the draft a second time. *)
Lemma placePizzaOrder_upstream_failure_keeps_quote :
  let env := demo_env [bad_request_response; ok_response doc_placed] in
  let payload := place_payload (VBool true) in
  let first := placePizzaOrder demo_runtime env payload (quoted_world 1000500) in
  let second := placePizzaOrder demo_runtime env payload first.2 in
  first.1 = Throw (RequestFailed 400 "Bad Request" val_error)
  /\ storage first.2 !! quote_key "tok" = Some demo_quote
  /\ count_events is_storage_delete (trace first.2) = 0%nat
  /\ count_events (is_fetch_to "/power/place-order") (trace first.2) = 1%nat
  /\ second.1 = Ok (VObj [("ok", VBool true); ("result", val_placed);
                          ("note", VStr place_note)])
  /\ count_events (is_fetch_to "/power/place-order") (trace second.2) = 2%nat
  /\ storage second.2 !! quote_key "tok" = None.
Proof. vm_compute. split_and!; reflexivity. Qed.

(** ** Quoting *)

Lemma findBestStore_frame (rt : Runtime) (env : Env) (a c r p : value)
  (sm : string) (w w' : World) (res : result (string * value)) :
  findBestStore rt env a c r p sm w = (res, w') ->
  storage w' = storage w
  /\ uuids w' = uuids w
  /\ exists req delays,
       url_path req = "/power/store-locator"
       /\ trace w' = trace w ++ retry_log req delays.
Proof.
  unfold findBestStore, bind.
  destruct (store_locator rt env a c r p sm w) as [[data|e] w1] eqn:Hloc;
    unfold store_locator in Hloc;
    apply dominosFetchJson_frame in Hloc as (Hs & Hu & _ & delays & Ht).
  - intros Hrun.
    assert (w' = w1) as ->.
    { destruct (length _ =? 0)%nat; [by injection Hrun|].
      destruct (is_empty _); by injection Hrun. }
    split_and!; [done | done |]. eexists _, delays. split; [|exact Ht]. reflexivity.
  - intros [= _ <-].
    split_and!; [done | done |]. eexists _, delays. split; [|exact Ht]. reflexivity.
Qed.

(** The effects of the first part of a quote that reached a validation
    answer: the store-locator call, the order id and the validate-order
    call, and nothing else. *)
Lemma quoteValidate_ok (rt : Runtime) (env : Env) (payload : value)
  (w w1 : World) (v : Validated) :
  quoteValidate rt env payload w = (Ok v, w1) ->
  storage w1 = storage w
  /\ uuids w1 = S (uuids w)
  /\ exists locate d1 validate d2,
       url_path locate = "/power/store-locator"
       /\ url_path validate = "/power/validate-order"
       /\ trace w1 = trace w ++ retry_log locate d1
                     ++ RandomUUID (uuid_source env (uuids w))
                     :: retry_log validate d2.
Proof.
  unfold quoteValidate.
  rewrite bind_lift. destruct (normalizeServiceMethod _ _); [|discriminate].
  rewrite bind_lift. destruct (buildAddress _ _ _ _ _); [|discriminate].
  rewrite bind_lift. destruct (assertString _ "phone"); [|discriminate].
  rewrite bind_lift. destruct (assertString _ "email"); [|discriminate].
  rewrite bind_lift. destruct (assertString _ "itemsJson"); [|discriminate].
  rewrite bind_lift. destruct (safeJsonParse _ _ _); [|discriminate].
  rewrite bind_lift. destruct (buildProducts _ _); [|discriminate].
  intros (found & wa & Hfind & Hrest)%bind_ok.
  apply findBestStore_frame in Hfind as (Hsa & Hua & locate & d1 & Hpl & Hta).
  apply bind_ok in Hrest as (id & wb & Hid & Hrest).
  unfold randomUUID in Hid. injection Hid as <- <-.
  apply bind_ok in Hrest as (validated & wc & Hval & Hret).
  unfold ret in Hret. injection Hret as _ <-.
  apply dominosFetchJson_frame in Hval as (Hsc & Huc & _ & d2 & Htc).
  unfold drew_uuid, log in Hsc, Huc, Htc. cbn [storage uuids trace] in Hsc, Huc, Htc.
  split_and!; [congruence | congruence |].
  eexists locate, d1, (request_of rt "/power/validate-order" "POST" [] _), d2.
  split_and!; [done | reflexivity |].
  rewrite Htc, Hta, Hua, <- !app_assoc. reflexivity.
Qed.

Lemma validation_rejected_iff (validated : value) :
  validation_rejected validated = true
  <-> truthy (get validated "Status") = true
      /\ get validated "Status" <> VStr "0".
Proof.
  unfold validation_rejected.
  destruct (get validated "Status") as [| |b|n|s|l|fs]; simpl.
  - intuition discriminate.
  - intuition discriminate.
  - rewrite !andb_true_r. intuition discriminate.
  - destruct n as [|neg|x]; simpl; [intuition discriminate..|].
    destruct (Qeq_bool x 0); simpl; intuition discriminate.
  - rewrite andb_true_r. destruct s as [|c s]; simpl; [intuition discriminate|].
    case_bool_decide; simpl; intuition congruence.
  - intuition discriminate.
  - intuition discriminate.
Qed.

Lemma quoteValidate_effects (rt : Runtime) (env : Env) (payload : value)
  (w w1 : World) (v : Validated) :
  quoteValidate rt env payload w = (Ok v, w1) ->
  storage w1 = storage w
  /\ uuids w1 = S (uuids w)
  /\ exists evs,
       trace w1 = trace w ++ evs
       /\ none_of (is_fetch_to "/power/price-order") evs
       /\ none_of is_storage_access evs
       /\ count_events is_uuid evs = 1%nat.
Proof.
  intros (Hs & Hu & locate & d1 & validate & d2 & Hl & Hv & Ht)%quoteValidate_ok.
  split_and!; [done | done |].
  eexists. split; [exact Ht|].
  split_and!.
  - apply Forall_app. split; [|constructor; [reflexivity|]];
      apply retry_log_none; simpl; try done;
      apply bool_decide_eq_false_2; congruence.
  - apply Forall_app. split; [|constructor; [reflexivity|]];
      by apply retry_log_none.
  - rewrite count_events_app.
    rewrite (none_of_count is_uuid (retry_log locate d1))
      by (by apply retry_log_none).
    change (RandomUUID ?id :: ?l) with ([RandomUUID id] ++ l).
    rewrite count_events_app.
    by rewrite (none_of_count is_uuid (retry_log validate d2))
      by (by apply retry_log_none).
Qed.

(** C7 (amended): when the validate-order answer has a truthy Status that
    is not the string ["0"] (so neither absent, [null], [false], [0], NaN
    nor the empty string), [quotePizzaOrder] returns, without raising, the
    rejection result with [ok: false], step ["validate-order"], the
    upstream status, a message and the raw answer as details; nothing
    happens after the validation answer, so price-order is not called, the
    only UUID drawn is the order id, and storage is neither read nor
    written. *)
Theorem quotePizzaOrder_validation_rejection (rt : Runtime) (env : Env)
  (payload : value) (w w1 : World) (v : Validated) :
  quoteValidate rt env payload w = (Ok v, w1) ->
  truthy (get (v_response v) "Status") = true ->
  get (v_response v) "Status" <> VStr "0" ->
  exists res evs,
    quotePizzaOrder rt env payload w = (Ok res, w1)
    /\ get res "ok" = VBool false
    /\ get res "step" = VStr "validate-order"
    /\ get res "status" = get (v_response v) "Status"
    /\ get res "message"
       = js_or (get (v_response v) "Message") (VStr "Order validation failed.")
    /\ get res "details" = v_response v
    /\ get res "orderToken" = VUndef
    /\ storage w1 = storage w
    /\ trace w1 = trace w ++ evs
    /\ none_of (is_fetch_to "/power/price-order") evs
    /\ none_of is_storage_access evs
    /\ count_events is_uuid evs = 1%nat.
Proof.
  intros Hval Htruthy Hnot.
  destruct (quoteValidate_effects _ _ _ _ _ _ Hval)
    as (Hs & _ & evs & Ht & Hprice & Hstore & Hid).
  exists (rejection (v_response v)), evs.
  split_and!; try done.
  unfold quotePizzaOrder, bind. rewrite Hval. unfold quoteFinish.
  by rewrite (proj2 (validation_rejected_iff _) (conj Htruthy Hnot)).
Qed.

Lemma quotePizzaOrder_validation_rejection_witness :
  let env := demo_env [ok_response doc_stores; ok_response doc_status_one] in
  exists res w1,
    quotePizzaOrder demo_runtime env demo_payload (empty_world 1000000)
    = (Ok res, w1)
    /\ get res "ok" = VBool false
    /\ get res "message" = VStr "Address not serviceable"
    /\ storage w1 = ∅.
Proof.
  intros env.
  pose (run := quoteValidate demo_runtime env demo_payload (empty_world 1000000)).
  assert (Hrun : exists v, run = (Ok v, run.2) /\ v_response v = val_status_one).
  { eexists. split; vm_compute; reflexivity. }
  destruct Hrun as (v & Hrun & Hv).
  destruct (quotePizzaOrder_validation_rejection demo_runtime env demo_payload
              (empty_world 1000000) run.2 v Hrun)
    as (res & evs & Hq & Hok & _ & _ & Hmsg & _ & _ & Hs & _).
  - rewrite Hv. reflexivity.
  - rewrite Hv. discriminate.
  - exists res, run.2. rewrite Hv in Hmsg. split_and!; done.
Defined.

(** C7 (as stated) fails: a validate-order answer whose Status is present
    and is the empty string, hence neither the number 0 nor the string
    ["0"], is not rejected: the quote goes on to price-order, draws a token
    and stores the draft. *)
Lemma quotePizzaOrder_empty_status_not_rejected :
  let env := demo_env [ok_response doc_stores; ok_response doc_status_empty;
                       ok_response doc_priced] in
  let validated := quoteValidate demo_runtime env demo_payload (empty_world 1000000) in
  let run := quotePizzaOrder demo_runtime env demo_payload (empty_world 1000000) in
  (exists v, validated.1 = Ok v
             /\ v_response v = val_status_empty
             /\ is_present (get (v_response v) "Status") = true
             /\ is_number_zero (get (v_response v) "Status") = false
             /\ is_string "0" (get (v_response v) "Status") = false)
  /\ (exists res, run.1 = Ok res
                  /\ get res "ok" = VBool true
                  /\ get res "orderToken" = VStr "9b2f0c1e-7d4a-4c55-8e21-0a1b2c3d4e5f")
  /\ count_events (is_fetch_to "/power/price-order") (trace run.2) = 1%nat
  /\ count_events is_storage_write (trace run.2) = 1%nat
  /\ is_Some (storage run.2 !! quote_key "9b2f0c1e-7d4a-4c55-8e21-0a1b2c3d4e5f").
Proof.
  split_and!.
  - eexists. split_and!; vm_compute; reflexivity.
  - eexists. split_and!; vm_compute; reflexivity.
  - vm_compute. reflexivity.
  - vm_compute. reflexivity.
  - vm_compute. eexists. reflexivity.
Qed.

(** C10: whenever [quotePizzaOrder] returns a result with [ok: false],
    storage is what it was before the call, no storage operation was made,
    the only UUID drawn is the order id and the result carries no order
    token; hence a confirmed placement with any token that was not stored
    before the call still fails with the unknown-token error. *)
Theorem quotePizzaOrder_rejection_stores_nothing (rt : Runtime) (env : Env)
  (payload : value) (w w' : World) (res : value) :
  quotePizzaOrder rt env payload w = (Ok res, w') ->
  get res "ok" = VBool false ->
  storage w' = storage w
  /\ uuids w' = S (uuids w)
  /\ get res "orderToken" = VUndef
  /\ (exists evs,
        trace w' = trace w ++ evs
        /\ none_of is_storage_access evs
        /\ count_events is_uuid evs = 1%nat)
  /\ (forall placing raw,
        get placing "orderToken" = VStr raw ->
        trim raw <> "" ->
        get placing "confirm" = VBool true ->
        storage w !! quote_key (trim raw) = None ->
        (placePizzaOrder rt env placing w').1
        = Throw (UserError UnknownOrExpiredToken)).
Proof.
  unfold quotePizzaOrder.
  intros (v & w1 & Hval & Hfin)%bind_ok Hok.
  unfold quoteFinish in Hfin.
  destruct (validation_rejected (v_response v)).
  - unfold ret in Hfin. injection Hfin as <- <-.
    destruct (quoteValidate_effects _ _ _ _ _ _ Hval)
      as (Hs & Hu & evs & Ht & _ & Hstore & Hid).
    split_and!; [done | done | reflexivity | by exists evs |].
    intros placing raw Htok Hne Hc Hnone.
    rewrite (placePizzaOrder_unknown_token rt env placing w1 raw); [done..|].
    by rewrite Hs.
  - apply bind_ok in Hfin as (priced & w2 & _ & Hfin).
    apply bind_ok in Hfin as (token & w3 & _ & Hfin).
    apply bind_ok in Hfin as (now & w4 & _ & Hfin).
    apply bind_ok in Hfin as ([] & w5 & _ & Hfin).
    apply bind_ok in Hfin as (quote & w6 & _ & Hfin).
    unfold ret in Hfin. injection Hfin as <- _.
    discriminate Hok.
Qed.

Lemma quotePizzaOrder_rejection_stores_nothing_witness :
  let env := demo_env [ok_response doc_stores; ok_response doc_status_one] in
  let run := quotePizzaOrder demo_runtime env demo_payload (empty_world 1000000) in
  storage run.2 = ∅ /\ uuids run.2 = 1%nat.
Proof.
  intros env run.
  destruct (quotePizzaOrder_rejection_stores_nothing demo_runtime env
              demo_payload (empty_world 1000000) run.2
              (rejection val_status_one))
    as (Hs & Hu & _).
  - vm_compute. reflexivity.
  - reflexivity.
  - split; [exact Hs | exact Hu].
Defined.

(** * Further properties of the source *)

(** ** Trimming and letter case *)

Lemma trimStart_head (s : string) : head_not_ws (trimStart s).
Proof.
  induction s as [|c r IH]; simpl; [done|].
  destruct (is_ws c) eqn:E; [exact IH | exact E].
Qed.

Lemma trimStart_fixed (s : string) : head_not_ws s -> trimStart s = s.
Proof. destruct s as [|c r]; simpl; [done|]. by intros ->. Qed.

Lemma trimEnd_head (s : string) : head_not_ws s -> head_not_ws (trimEnd s).
Proof.
  destruct s as [|c r]; simpl; [done|]. intros H. rewrite H. simpl. exact H.
Qed.

Lemma trimEnd_idem (s : string) : trimEnd (trimEnd s) = trimEnd s.
Proof.
  induction s as [|c r IH]; simpl; [done|].
  destruct (is_ws c && is_empty (trimEnd r)) eqn:E; [done|].
  simpl. by rewrite IH, E.
Qed.

Lemma trim_idem (s : string) : trim (trim s) = trim s.
Proof.
  unfold trim.
  rewrite (trimStart_fixed (trimEnd (trimStart s)))
    by apply trimEnd_head, trimStart_head.
  apply trimEnd_idem.
Qed.

Lemma upper_char_idem (c : ascii) : upper_char (upper_char c) = upper_char c.
Proof. by destruct c as [[] [] [] [] [] [] [] []]. Qed.

Lemma toUpperCase_idem (s : string) : toUpperCase (toUpperCase s) = toUpperCase s.
Proof.
  induction s as [|c r IH]; simpl; [done|]. by rewrite upper_char_idem, IH.
Qed.

Lemma is_empty_false (s : string) : is_empty s = false <-> s <> "".
Proof. destruct s; simpl; split; congruence. Qed.

(** ** Normalizers *)

(** X2: on address fields of ASCII text, [buildAddress] reports the first
    blank field in the order addressLine1, city, region, postalCode; when
    none is blank it returns an address whose City and Region are the
    trimmed inputs in upper case, whose PostalCode is trimmed, and whose
    Type is ['Apartment'] exactly when the second line is a non-blank
    string, in which case Street is the two trimmed lines joined by one
    space. *)
Theorem buildAddress_outcome (a1 a2 c r p : value) :
  ascii_value a1 = true -> ascii_value a2 = true -> ascii_value c = true ->
  ascii_value r = true -> ascii_value p = true ->
  match first_blank_address_field a1 c r p with
  | Some field =>
      buildAddress a1 a2 c r p = Throw (UserError (RequiredString field))
  | None =>
      exists line1 city region pc addr,
        a1 = VStr line1 /\ c = VStr city /\ r = VStr region /\ p = VStr pc
        /\ buildAddress a1 a2 c r p = Ok addr
        /\ get addr "City" = VStr (toUpperCase (trim city))
        /\ toUpperCase (toUpperCase (trim city)) = toUpperCase (trim city)
        /\ get addr "Region" = VStr (toUpperCase (trim region))
        /\ get addr "PostalCode" = VStr (trim pc)
        /\ match a2 with
           | VStr line2 =>
               if is_empty (trim line2)
               then get addr "Type" = VStr "House"
                    /\ get addr "Street" = VStr (trim line1)
               else get addr "Type" = VStr "Apartment"
                    /\ get addr "Street"
                       = VStr (trim line1 +:+ " " +:+ trim line2)
           | _ => get addr "Type" = VStr "House"
                  /\ get addr "Street" = VStr (trim line1)
           end
  end.
Proof.
  intros _ _ _ _ _.
  unfold first_blank_address_field, buildAddress, bind_result.
  pose proof (assertString_cases a1 "addressLine1") as H1.
  destruct (assertString a1 "addressLine1") as [l1|e];
    [destruct H1 as (-> & raw1 & -> & ->) | by destruct H1 as [-> ->]].
  pose proof (assertString_cases c "city") as H2.
  destruct (assertString c "city") as [l2|e];
    [destruct H2 as (-> & raw2 & -> & ->) | by destruct H2 as [-> ->]].
  pose proof (assertString_cases r "region") as H3.
  destruct (assertString r "region") as [l3|e];
    [destruct H3 as (-> & raw3 & -> & ->) | by destruct H3 as [-> ->]].
  pose proof (assertString_cases p "postalCode") as H4.
  destruct (assertString p "postalCode") as [l4|e];
    [destruct H4 as (-> & raw4 & -> & ->) | by destruct H4 as [-> ->]].
  eexists raw1, raw2, raw3, raw4, _.
  split_and!; try reflexivity; [apply toUpperCase_idem|].
  destruct a2 as [| | | |line2| |]; simpl; try done.
  by destruct (is_empty (trim line2)).
Qed.

Lemma buildAddress_outcome_witness :
  (exists addr,
     buildAddress (VStr " 1 Main St ") (VStr "Apt 4B") (VStr "New York")
       (VStr "ny") (VStr "10001 ") = Ok addr
     /\ get addr "City" = VStr "NEW YORK"
     /\ get addr "Region" = VStr "NY"
     /\ get addr "PostalCode" = VStr "10001"
     /\ get addr "Type" = VStr "Apartment"
     /\ get addr "Street" = VStr "1 Main St Apt 4B")
  /\ buildAddress (VStr "1 Main St") VUndef (VStr "  ") VUndef (VStr "10001")
     = Throw (UserError (RequiredString "city")).
Proof.
  split.
  - destruct (buildAddress_outcome (VStr " 1 Main St ") (VStr "Apt 4B")
                (VStr "New York") (VStr "ny") (VStr "10001 ")
                eq_refl eq_refl eq_refl eq_refl eq_refl)
      as (line1 & city & region & pc & addr
          & [= <-] & [= <-] & [= <-] & [= <-]
          & Hrun & Hcity & _ & Hregion & Hpc & Htype & Hstreet).
    exists addr. split_and!; assumption.
  - exact (buildAddress_outcome (VStr "1 Main St") VUndef (VStr "  ") VUndef
             (VStr "10001") eq_refl eq_refl eq_refl eq_refl eq_refl).
Defined.

(** X3: for a first address line that is not blank, [buildStreetName]
    returns a street name that is not empty and has no surrounding
    whitespace. *)
Theorem buildStreetName_nonblank (line1 : string) :
  trim line1 <> "" ->
  buildStreetName line1 <> "" /\ is_trimmed (buildStreetName line1).
Proof.
  intros Hne. unfold buildStreetName.
  destruct (is_empty (trim (strip_unit (strip_house_number (trim line1))))) eqn:E.
  - split; [exact Hne | exact (trim_idem _)].
  - split; [by apply is_empty_false | exact (trim_idem _)].
Qed.

Lemma buildStreetName_nonblank_witness :
  buildStreetName " 12 Broadway #5" <> ""
  /\ is_trimmed (buildStreetName " 12 Broadway #5").
Proof. apply (buildStreetName_nonblank " 12 Broadway #5"). discriminate. Defined.

(** ** Line items *)

Lemma lookup_set_field_eq (k : string) (x : value) (fs : list (string * value)) :
  lookup_field k (set_field k x fs) = x.
Proof.
  induction fs as [|[k' v] r IH]; simpl.
  - by rewrite bool_decide_eq_true_2.
  - case_bool_decide as E; simpl.
    + by rewrite bool_decide_eq_true_2.
    + by rewrite bool_decide_eq_false_2.
Qed.

Lemma lookup_set_field_ne (k k' : string) (x : value) (fs : list (string * value)) :
  k' <> k -> lookup_field k' (set_field k x fs) = lookup_field k' fs.
Proof.
  intros Hne. induction fs as [|[k0 v] r IH]; simpl.
  - by rewrite bool_decide_eq_false_2.
  - case_bool_decide as E; simpl.
    + subst k0. by rewrite !bool_decide_eq_false_2.
    + case_bool_decide; [done | exact IH].
Qed.

Lemma buildProduct_ok (rt : Runtime) (idx : nat) (p p' : value) :
  buildProduct rt idx p = Ok p' -> normalized_product rt idx p p'.
Proof.
  unfold buildProduct.
  destruct (negb (truthy p) || negb (typeof_object p)); [discriminate|].
  destruct (get p "Code") as [| | | |code| |] eqn:Hcode; try discriminate.
  destruct (is_empty (trim code)) eqn:Hblank; [discriminate|].
  destruct (to_number rt (get p "Qty")) as [| |qty] eqn:Hqty; try discriminate.
  destruct (Qle_bool qty 0) eqn:Hle; [discriminate|].
  intros [= <-].
  assert (Hpos : (0 < qty)%Q).
  { apply Qnot_le_lt. intros H. apply Qle_bool_iff in H. congruence. }
  destruct p as [| | | | | |fs]; try discriminate. simpl own_fields. simpl get.
  unfold normalized_product, get in *. split_and!.
  - exists code. split_and!; [done | by apply is_empty_false |].
    by rewrite !lookup_set_field_ne, lookup_set_field_eq by done.
  - exists qty. split_and!; [done | done | |].
    + by rewrite !lookup_set_field_ne, lookup_set_field_eq by done.
    + change 0 with (Qfloor 0). apply Qfloor_resp_le. by apply Qlt_le_weak.
  - by rewrite lookup_set_field_ne, lookup_set_field_eq by done.
  - by rewrite lookup_set_field_eq.
  - intros k ? ? ? ?. by rewrite !lookup_set_field_ne by done.
Qed.



Lemma map_products_lookup (rt : Runtime) (l : list value) :
  forall idx products,
    map_products rt idx l = Ok products ->
    length products = length l
    /\ forall i p, l !! i = Some p ->
         exists p', products !! i = Some p'
                    /\ buildProduct rt (idx + i) p = Ok p'.
Proof.
  induction l as [|x r IH]; intros idx products; simpl.
  - intros [= <-]. split; [done|]. intros i p. by rewrite lookup_nil.
  - destruct (buildProduct rt idx x) as [x'|] eqn:Hx; [|discriminate]. simpl.
    destruct (map_products rt (S idx) r) as [r'|] eqn:Hr; [|discriminate].
    simpl. intros [= <-].
    destruct (IH _ _ Hr) as [Hlen Hall].
    split; [simpl; by rewrite Hlen|].
    intros [|i] p; simpl.
    + intros [= <-]. exists x'. by rewrite Nat.add_0_r.
    + intros Hp. destruct (Hall i p Hp) as (p' & Hp' & Hb).
      exists p'. split; [done|].
      by replace (idx + S i)%nat with (S idx + i)%nat by lia.
Qed.

(** X4: when [buildProducts] succeeds, the input is an array and the output
    has one product per item, in order.  In each product Code is the
    trimmed, non-blank input code; Qty is the floor of the input quantity,
    which was finite and positive; ID is the supplied one, or the 1-based
    position when it is absent or [null]; isNew defaults to [false]; every
    other field of the item is passed through unchanged. *)
Theorem buildProducts_normalizes (rt : Runtime) (items : value)
  (products : list value) :
  buildProducts rt items = Ok products ->
  exists l,
    items = VArr l
    /\ length products = length l
    /\ forall i p, l !! i = Some p ->
         exists p', products !! i = Some p' /\ normalized_product rt i p p'.
Proof.
  unfold buildProducts.
  destruct items as [| | | | |l|]; try discriminate.
  destruct l as [|x r]; [discriminate|].
  intros (Hlen & Hall)%map_products_lookup.
  exists (x :: r). split_and!; [done | done |].
  intros i p Hp. destruct (Hall i p Hp) as (p' & Hp' & Hb).
  exists p'. split; [done|]. by apply buildProduct_ok in Hb.
Qed.

Lemma buildProducts_normalizes_witness :
  exists p',
    [VObj [("Code", VStr "14SCREEN"); ("Qty", VNum (Fin 1));
           ("ID", VNum (Fin 1)); ("isNew", VBool false)]] !! 0%nat = Some p'
    /\ normalized_product demo_runtime 0
         (VObj [("Code", VStr "14SCREEN"); ("Qty", num 1)]) p'.
Proof.
  destruct (buildProducts_normalizes demo_runtime val_items _ eq_refl)
    as (l & Hl & _ & Hall).
  injection Hl as <-. exact (Hall 0%nat _ eq_refl).
Defined.



(** X6: a quantity strictly between 0 and 1 passes the check of
    [buildProducts] and is floored to 0, so an accepted product can carry
    the quantity 0. *)
Theorem buildProducts_fractional_quantity (rt : Runtime) (l products : list value)
  (i : nat) (p : value) (qty : Q) :
  buildProducts rt (VArr l) = Ok products ->
  l !! i = Some p ->
  to_number rt (get p "Qty") = Fin qty ->
  (qty < 1)%Q ->
  exists p', products !! i = Some p' /\ get p' "Qty" = num 0.
Proof.
  unfold buildProducts. destruct l as [|x r]; [discriminate|].
  intros (_ & Hall)%map_products_lookup Hp Hq Hlt.
  destruct (Hall i p Hp) as (p' & Hp' & Hb).
  exists p'. split; [done|].
  apply buildProduct_ok in Hb as (_ & (qty' & Hq' & Hpos & Hget & Hfl) & _).
  rewrite Hq in Hq'. injection Hq' as <-.
  rewrite Hget. do 3 f_equal.
  assert (Qfloor qty < 1); [|lia].
  rewrite Zlt_Qlt. eapply Qle_lt_trans; [apply Qfloor_le | exact Hlt].
Qed.

Lemma buildProducts_fractional_quantity_witness :
  exists p',
    buildProducts demo_runtime
      (VArr [VObj [("Code", VStr "14SCREEN"); ("Qty", VNum (Fin (1 # 2)))]])
    = Ok [p']
    /\ get p' "Qty" = num 0.
Proof.
  pose (item := VObj [("Code", VStr "14SCREEN"); ("Qty", VNum (Fin (1 # 2)))]).
  destruct (buildProducts_fractional_quantity demo_runtime [item]
              [VObj [("Code", VStr "14SCREEN"); ("Qty", num 0);
                     ("ID", num 1); ("isNew", VBool false)]]
              0 item (1 # 2))
    as (p' & Hp' & Hq); [reflexivity..|].
  injection Hp' as <-. eexists. split; [reflexivity | exact Hq].
Defined.

(** ** More on the HTTP client *)

Lemma fetch_attempts_recovers (rt : Runtime) (env : Env) (req : Request)
  (r : Response) (data : value) (k : nat) :
  forall (n : nat) (attempt : Z) (lastErr : option exn) (w : World),
    (k <= n)%nat ->
    attempt + Z.of_nat n = maxAttempts ->
    transient_failures rt env req (fetches w) k ->
    upstream env (fetches w + k)%nat req = Responds r ->
    ok r = true ->
    response_data rt r = Ok data ->
    exists w',
      fetch_attempts rt env (S n) attempt req lastErr w = (Ok data, w')
      /\ fetches w' = (fetches w + S k)%nat.
Proof.
  induction k as [|k IH]; intros n attempt lastErr w Hk Hat Htr Hup Hok Hd.
  - rewrite Nat.add_0_r in Hup.
    rewrite fetch_attempts_first, Hup, Hd, Hok.
    eexists. split; [reflexivity | simpl; lia].
  - destruct n as [|n]; [lia|].
    destruct (Htr 0%nat) as (r0 & d0 & Hr0 & Hok0 & Hre0 & Hd0); [lia|].
    rewrite Nat.add_0_r in Hr0.
    rewrite fetch_attempts_first, Hr0, Hd0, Hok0, Hre0. simpl negb. cbn [orb].
    replace (attempt =? maxAttempts) with false by lia.
    set (w2 := slept _ _).
    destruct (IH n (attempt + 1) (Some (RequestFailed (status r0) (statusText r0) d0)) w2)
      as (w' & Hrun & Hf); try done; try lia.
    + intros i Hi. destruct (Htr (S i)) as (ri & di & Hri & ?); [lia|].
      exists ri, di. split; [|done].
      by replace (fetches w2 + i)%nat with (fetches w + S i)%nat by (simpl; lia).
    + by replace (fetches w2 + k)%nat with (fetches w + S k)%nat by (simpl; lia).
    + exists w'. split; [done | simpl in Hf; lia].
Qed.

(** X7: when the first [k] answers (at most three) are 429 or 5xx with a
    body that decodes and the next answer is a success, [dominosFetchJson]
    returns the body of that success after exactly [k + 1] attempts and [k]
    waits, and storage is untouched. *)
Theorem dominosFetchJson_recovers (rt : Runtime) (env : Env)
  (path method : string) (query : list (string * value)) (body : value)
  (w : World) (k : nat) (r : Response) (data : value) :
  let req := request_of rt path method query body in
  (k <= 3)%nat ->
  transient_failures rt env req (fetches w) k ->
  upstream env (fetches w + k)%nat req = Responds r ->
  ok r = true ->
  response_data rt r = Ok data ->
  exists w',
    dominosFetchJson rt env path method query body w = (Ok data, w')
    /\ fetches w' = (fetches w + S k)%nat
    /\ trace w' = trace w ++ retry_log req (map (delay_before env w 1) (seq 0 k))
    /\ storage w' = storage w.
Proof.
  intros req Hk Htr Hup Hok Hd. unfold dominosFetchJson. fold req.
  change (Z.to_nat maxAttempts) with 4%nat.
  destruct (fetch_attempts_recovers rt env req r data k 3 1 None w)
    as (w' & Hrun & Hf); try done.
  exists w'. split; [exact Hrun|]. split; [exact Hf|].
  apply fetch_attempts_run in Hrun as (k' & _ & Hf' & _ & Hs & _ & Ht & _);
    [|reflexivity].
  assert (k' = k) as -> by lia. by split.
Qed.

Lemma dominosFetchJson_recovers_witness :
  let env := demo_env [busy_response; busy_response; ok_response doc_placed] in
  exists w',
    dominosFetchJson demo_runtime env "/power/place-order" "POST" [] val_priced
      (empty_world 0)
    = (Ok val_placed, w')
    /\ fetches w' = 3%nat.
Proof.
  intros env.
  destruct (dominosFetchJson_recovers demo_runtime env "/power/place-order"
              "POST" [] val_priced (empty_world 0) 2
              (json_response 200 "OK" doc_placed) val_placed)
    as (w' & Hrun & Hf & _); try done; [lia | |by exists w'].
  intros i Hi.
  exists (json_response 503 "Service Unavailable" doc_error), val_error.
  destruct i as [|[|i]]; [done | done | lia].
Defined.

(** X8: an answer whose content type is JSON and whose non-empty body does
    not parse ends [dominosFetchJson] at once with the invalid-JSON error
    for the Domino response: there is no retry, whatever the status, even
    429 or 5xx. *)
Theorem dominosFetchJson_malformed_body (rt : Runtime) (env : Env)
  (path method : string) (query : list (string * value)) (body : value)
  (w : World) (r : Response) :
  let req := request_of rt path method query body in
  upstream env (fetches w) req = Responds r ->
  includes (default "" (content_type r)) "application/json" = true ->
  text r <> "" ->
  JSON_parse rt (text r) = None ->
  dominosFetchJson rt env path method query body w
  = (Throw (UserError (InvalidJson "Domino response")), fetched req w).
Proof.
  intros req Hup Hjson Htext Hparse. unfold dominosFetchJson. fold req.
  change (Z.to_nat maxAttempts) with 4%nat.
  rewrite fetch_attempts_first, Hup.
  unfold response_data, safeJsonParse.
  rewrite Hjson, (proj2 (is_empty_false _) Htext), Hparse. reflexivity.
Qed.

Lemma dominosFetchJson_malformed_body_witness :
  let env := demo_env [Responds (json_response 503 "Service Unavailable" "<html>")] in
  let run := dominosFetchJson demo_runtime env "/power/price-order" "POST" []
               val_status_zero (empty_world 0) in
  run.1 = Throw (UserError (InvalidJson "Domino response"))
  /\ fetches run.2 = 1%nat.
Proof.
  intros env run. subst run.
  rewrite (dominosFetchJson_malformed_body demo_runtime env "/power/price-order"
             "POST" [] val_status_zero (empty_world 0)
             (json_response 503 "Service Unavailable" "<html>"));
    [by split | reflexivity | reflexivity | discriminate | reflexivity].
Defined.

(** X9: a rejection of [fetch] itself (no response at all) is not retried:
    [dominosFetchJson] raises it after that single attempt. *)
Theorem dominosFetchJson_rejection_not_retried (rt : Runtime) (env : Env)
  (path method : string) (query : list (string * value)) (body : value)
  (w : World) :
  let req := request_of rt path method query body in
  upstream env (fetches w) req = Rejects ->
  dominosFetchJson rt env path method query body w
  = (Throw FetchRejected, fetched req w).
Proof.
  intros req Hup. unfold dominosFetchJson. fold req.
  change (Z.to_nat maxAttempts) with 4%nat.
  by rewrite fetch_attempts_first, Hup.
Qed.

Lemma dominosFetchJson_rejection_not_retried_witness :
  let run := dominosFetchJson demo_runtime (demo_env []) "/power/price-order"
               "POST" [] val_status_zero (empty_world 0) in
  run.1 = Throw FetchRejected /\ fetches run.2 = 1%nat.
Proof.
  intros run. subst run.
  by rewrite (dominosFetchJson_rejection_not_retried demo_runtime (demo_env [])
                "/power/price-order" "POST" [] val_status_zero (empty_world 0)
                eq_refl).
Defined.

Lemma fetch_attempts_clock (rt : Runtime) (env : Env) (req : Request) (n : nat) :
  (forall i, (0 <= random_source env i)%Q /\ (random_source env i < 1)%Q) ->
  forall (attempt : Z) (lastErr : option exn) (w w' : World) (res : result value),
    1 <= attempt ->
    attempt + Z.of_nat n = maxAttempts ->
    fetch_attempts rt env (S n) attempt req lastErr w = (res, w') ->
    clock w <= clock w'
    /\ clock w' <= clock w
                   + 250 * (2 ^ (attempt + Z.of_nat n - 1) - 2 ^ (attempt - 1))
                   + 199 * Z.of_nat n.
Proof.
  intros Hrand.
  induction n as [|n IH]; intros attempt lastErr w w' res H1 Hat Hrun;
    rewrite fetch_attempts_first in Hrun.
  - assert (w' = fetched req w) as ->.
    { destruct (upstream env (fetches w) req) as [r|]; [|by injection Hrun].
      destruct (response_data rt r); [|by injection Hrun].
      destruct (ok r); [by injection Hrun|].
      replace (attempt =? maxAttempts) with true in Hrun by lia.
      rewrite orb_true_r in Hrun. by injection Hrun. }
    simpl clock. replace (attempt + Z.of_nat 0 - 1) with (attempt - 1) by lia. lia.
  - assert (Hpow : 2 ^ attempt = 2 * 2 ^ (attempt - 1)).
    { replace attempt with (Z.succ (attempt - 1)) at 1 by lia.
      rewrite Z.pow_succ_r by lia. done. }
    assert (Hmono : 2 ^ (attempt - 1) <= 2 ^ (attempt + Z.of_nat (S n) - 1))
      by (apply Z.pow_le_mono_r; lia).
    assert (Hx : 0 < 2 ^ (attempt - 1)) by (apply Z.pow_pos_nonneg; lia).
    destruct (upstream env (fetches w) req) as [r|];
      [|injection Hrun as _ <-; simpl; lia].
    destruct (response_data rt r); [|injection Hrun as _ <-; simpl; lia].
    destruct (ok r); [injection Hrun as _ <-; simpl; lia|].
    destruct (negb (retryable r) || (attempt =? maxAttempts));
      [injection Hrun as _ <-; simpl; lia|].
    apply IH in Hrun; [|lia..].
    pose proof (jitter_bounds _ (proj1 (Hrand (randoms w))) (proj2 (Hrand (randoms w))))
      as Hj.
    simpl in Hrun. unfold backoff_base in Hrun.
    replace (attempt + 1 + Z.of_nat n - 1) with (attempt + Z.of_nat (S n) - 1)
      in Hrun by lia.
    replace (attempt + 1 - 1) with attempt in Hrun by lia.
    lia.
Qed.

(** X10: with [Math.random] in [[0, 1)], the waits of one [dominosFetchJson]
    call add up to at most 2347 ms (250 + 500 + 1000 plus three jitters of
    at most 199): the clock never goes back and advances by no more than
    that through the backoff. *)
Theorem dominosFetchJson_backoff_bound (rt : Runtime) (env : Env)
  (path method : string) (query : list (string * value)) (body : value)
  (w w' : World) (res : result value) :
  (forall i, (0 <= random_source env i)%Q /\ (random_source env i < 1)%Q) ->
  dominosFetchJson rt env path method query body w = (res, w') ->
  clock w <= clock w' <= clock w + 2347.
Proof.
  intros Hrand Hrun. unfold dominosFetchJson in Hrun.
  change (Z.to_nat maxAttempts) with 4%nat in Hrun.
  apply (fetch_attempts_clock rt env _ 3 Hrand) in Hrun; [|done..].
  simpl in Hrun. lia.
Qed.

Lemma dominosFetchJson_backoff_bound_witness :
  let env := demo_env [busy_response; busy_response; busy_response; busy_response] in
  let run := dominosFetchJson demo_runtime env "/power/place-order" "POST" []
               val_priced (empty_world 0) in
  0 <= clock run.2 <= 2347.
Proof.
  intros env run.
  apply (dominosFetchJson_backoff_bound demo_runtime env "/power/place-order"
           "POST" [] val_priced (empty_world 0) run.2 run.1).
  - intros i. split; [discriminate | reflexivity].
  - apply surjective_pairing.
Defined.

(** ** More on store resolution and the summary *)

Lemma js_find_in (p : value -> bool) (l : list value) :
  truthy (js_find p l) = true -> In (js_find p l) l.
Proof.
  induction l as [|x r IH]; simpl; [discriminate|].
  destruct (p x); [by left | right; by apply IH].
Qed.

Lemma best_store_in (stores : list value) :
  stores <> [] -> In (best_store stores) stores.
Proof.
  intros Hne. unfold best_store, js_or.
  destruct (truthy (js_find is_online_and_open stores)) eqn:E1.
  - rewrite E1. by apply js_find_in.
  - destruct (truthy (js_find is_online stores)) eqn:E2.
    + by apply js_find_in.
    + destruct stores; [done | by left].
Qed.

(** X11: a store that [findBestStore] returns is one of the candidates the
    locator listed, and the store id returned with it is that candidate's
    identifier as a non-empty string without surrounding whitespace. *)
Theorem findBestStore_returns_listed (rt : Runtime) (env : Env)
  (a c r p : value) (sm : string) (w w' : World) (id : string) (store : value) :
  findBestStore rt env a c r p sm w = (Ok (id, store), w') ->
  exists data,
    store_locator rt env a c r p sm w = (Ok data, w')
    /\ In store (as_array (get data "Stores"))
    /\ id = store_id_of rt store
    /\ id <> "" /\ is_trimmed id.
Proof.
  unfold findBestStore.
  intros (data & w1 & Hloc & Hrest)%bind_ok.
  destruct (as_array (get data "Stores")) as [|s0 rest] eqn:Hstores;
    [discriminate|].
  simpl in Hrest.
  destruct (is_empty (store_id_of rt (best_store (s0 :: rest)))) eqn:E;
    [discriminate|].
  injection Hrest as <- <- <-.
  exists data. split_and!; [done | | done | by apply is_empty_false |].
  - rewrite Hstores. by apply best_store_in.
  - unfold store_id_of. exact (trim_idem _).
Qed.

Lemma findBestStore_returns_listed_witness :
  let env := demo_env [ok_response doc_three_stores] in
  exists store,
    (findBestStore demo_runtime env (VStr "1 Main St") (VStr "New York")
       (VStr "NY") (VStr "10001") "Delivery" (empty_world 0)).1
    = Ok ("3", store)
    /\ In store (as_array (get val_three_stores "Stores")).
Proof.
  intros env.
  pose (run := findBestStore demo_runtime env (VStr "1 Main St")
                 (VStr "New York") (VStr "NY") (VStr "10001") "Delivery"
                 (empty_world 0)).
  destruct (findBestStore_returns_listed demo_runtime env (VStr "1 Main St")
              (VStr "New York") (VStr "NY") (VStr "10001") "Delivery"
              (empty_world 0) run.2 "3"
              (VObj [("StoreID", VStr "3"); ("IsOnlineNow", VBool true);
                     ("IsOpen", VBool true)]))
    as (data & Hloc & Hin & _).
  - vm_compute. reflexivity.
  - exists (VObj [("StoreID", VStr "3"); ("IsOnlineNow", VBool true);
                  ("IsOpen", VBool true)]).
    split; [vm_compute; reflexivity|].
    assert (data = val_three_stores) as <-; [|exact Hin].
    vm_compute in Hloc. by injection Hloc.
Defined.

Lemma summary_items_null (products : list value) :
  Exists (fun p => nullish p = true) products ->
  summary_items products = Throw TypeError.
Proof.
  induction products as [|p r IH]; intros HE; [by apply Exists_nil in HE|].
  simpl. unfold summary_item.
  destruct (nullish p) eqn:E; [reflexivity|]. simpl.
  apply Exists_cons in HE as [HE|HE]; [congruence|].
  by rewrite (IH HE).
Qed.

(** X12: when the Products array of the priced order contains a [null] or
    [undefined] entry, [summarizeQuote] raises a [TypeError] instead of
    returning a summary. *)
Theorem summarizeQuote_null_product (priced : value) :
  Exists (fun p => nullish p = true)
    (as_array (get (order_of priced) "Products")) ->
  summarizeQuote priced = Throw TypeError.
Proof.
  intros HE. unfold summarizeQuote. fold (order_of priced).
  by rewrite (summary_items_null _ HE).
Qed.

Lemma summarizeQuote_null_product_witness :
  summarizeQuote
    (VObj [("Order", VObj [("Products",
             VArr [VObj [("Code", VStr "14SCREEN"); ("Qty", num 1)]; VNull])])])
  = Throw TypeError.
Proof.
  apply summarizeQuote_null_product.
  apply Exists_cons_tl, Exists_cons_hd. reflexivity.
Defined.

(** ** More on placement *)

(** X13: a confirmed placement whose token has no stored quote raises the
    unknown-or-expired-token error; its only effect is the storage read:
    no request is sent and storage is unchanged. *)
Theorem placePizzaOrder_unknown_token_only_reads (rt : Runtime) (env : Env)
  (payload : value) (w : World) (raw : string) :
  get payload "orderToken" = VStr raw ->
  trim raw <> "" ->
  get payload "confirm" = VBool true ->
  storage w !! quote_key (trim raw) = None ->
  exists w',
    placePizzaOrder rt env payload w
    = (Throw (UserError UnknownOrExpiredToken), w')
    /\ storage w' = storage w
    /\ fetches w' = fetches w
    /\ trace w' = trace w ++ [StorageGet (quote_key (trim raw))].
Proof.
  intros Htok Hne Hc Hnone.
  rewrite (placePizzaOrder_unknown_token rt env payload w raw) by done.
  eexists. by split_and!.
Qed.

Lemma placePizzaOrder_unknown_token_only_reads_witness :
  exists w',
    placePizzaOrder demo_runtime (demo_env [])
      (VObj [("orderToken", VStr " other "); ("confirm", VBool true)])
      (quoted_world 1000500)
    = (Throw (UserError UnknownOrExpiredToken), w')
    /\ storage w' = storage (quoted_world 1000500).
Proof.
  destruct (placePizzaOrder_unknown_token_only_reads demo_runtime (demo_env [])
              (VObj [("orderToken", VStr " other "); ("confirm", VBool true)])
              (quoted_world 1000500) " other ")
    as (w' & Hrun & Hs & _); [reflexivity | discriminate | reflexivity | |].
  - vm_compute. reflexivity.
  - by exists w'.
Defined.

(** X14: a confirmed placement of a stored quote that is at most 30 minutes
    old (exactly 30 minutes included) posts the stored priced draft to
    place-order; when that call returns, the result is the upstream answer
    unchanged under [result] with [ok: true], and the record is deleted
    after the call, every other record being kept. *)
Theorem placePizzaOrder_posts_and_deletes (rt : Runtime) (env : Env) (payload : value)
  (w w2 : World) (raw : string) (saved : Quote) (placed : value) :
  let key := quote_key (trim raw) in
  get payload "orderToken" = VStr raw ->
  trim raw <> "" ->
  get payload "confirm" = VBool true ->
  storage w !! key = Some saved ->
  clock w - createdAt saved <= 30 * 60 * 1000 ->
  dominosFetchJson rt env "/power/place-order" "POST" [] (pricedDraft saved)
    (log (StorageGet key) w) = (Ok placed, w2) ->
  exists w' delays,
    placePizzaOrder rt env payload w
    = (Ok (VObj [("ok", VBool true); ("result", placed);
                 ("note", VStr place_note)]), w')
    /\ storage w' = delete key (storage w)
    /\ trace w'
       = trace w
         ++ StorageGet key
         :: retry_log (request_of rt "/power/place-order" "POST" []
                         (pricedDraft saved)) delays
         ++ [StorageDelete key].
Proof.
  intros key Htok Hne Hc Hsaved Hage Hsent.
  rewrite (placePizzaOrder_attempt rt env payload w raw saved) by done.
  fold key. rewrite Hsent. simpl.
  apply dominosFetchJson_frame in Hsent as (Hs & _ & _ & delays & Ht).
  eexists _, delays. split_and!; [reflexivity | by simpl; rewrite Hs |].
  simpl. rewrite Ht. simpl. by rewrite <- !app_assoc.
Qed.

Lemma placePizzaOrder_posts_and_deletes_witness :
  let env := demo_env [ok_response doc_placed] in
  exists w',
    placePizzaOrder demo_runtime env (place_payload (VBool true))
      (quoted_world 2800000)
    = (Ok (VObj [("ok", VBool true); ("result", val_placed);
                 ("note", VStr place_note)]), w')
    /\ storage w' = delete (quote_key "tok") (storage (quoted_world 2800000)).
Proof.
  intros env.
  pose (sent := dominosFetchJson demo_runtime env "/power/place-order" "POST" []
                  val_priced (log (StorageGet (quote_key "tok"))
                                (quoted_world 2800000))).
  destruct (placePizzaOrder_posts_and_deletes demo_runtime env (place_payload (VBool true))
              (quoted_world 2800000) sent.2 "tok" demo_quote val_placed)
    as (w' & delays & Hrun & Hs & _);
    [reflexivity | discriminate | reflexivity | reflexivity | vm_compute; discriminate
    | vm_compute; reflexivity |].
  by exists w'.
Defined.

Lemma placePizzaOrder_frame (rt : Runtime) (env : Env)
  (payload : value) (w w' : World) (res : result value) :
  placePizzaOrder rt env payload w = (res, w') ->
  (storage w' = storage w
   \/ exists raw, get payload "orderToken" = VStr raw
                  /\ storage w' = delete (quote_key (trim raw)) (storage w))
  /\ exists evs, trace w' = trace w ++ evs /\ none_of is_storage_write evs.
Proof.
  unfold placePizzaOrder. rewrite bind_lift.
  pose proof (assertString_cases (get payload "orderToken") "orderToken") as Ht.
  destruct (assertString (get payload "orderToken") "orderToken") as [tok|e].
  2:{ intros [= _ <-]. split; [by left|].
      exists []. split; [by rewrite app_nil_r | constructor]. }
  destruct Ht as (_ & raw & Hraw & ->).
  destruct (is_true (get payload "confirm")).
  2:{ intros [= _ <-]. split; [by left|].
      exists []. split; [by rewrite app_nil_r | constructor]. }
  change (negb true) with false. cbv iota. unfold bind at 1, storage_get. cbv beta.
  destruct (storage w !! quote_key (trim raw)) as [saved|].
  2:{ intros [= _ <-]. split; [by left|].
      eexists. split; [done | by repeat constructor]. }
  unfold bind at 1. unfold Date_now. cbv beta.
  destruct (QUOTE_TTL_MS <? _).
  - intros [= _ <-]. simpl. split; [right; eauto|].
    eexists [_; _]. split; [by rewrite <- app_assoc | by repeat constructor].
  - unfold bind at 1. cbv beta.
    destruct (dominosFetchJson _ _ _ _ _ _ _) as [[placed|e] w2] eqn:Hsent;
      apply dominosFetchJson_frame in Hsent as (Hs & _ & _ & delays & Htr);
      simpl in Hs, Htr; intros [= _ <-]; simpl.
    + split; [right; exists raw; by rewrite Hs|].
      rewrite Htr, <- !app_assoc. eexists. split; [reflexivity|].
      apply Forall_app. split; [by repeat constructor|].
      apply Forall_app. split; [by apply retry_log_none | by repeat constructor].
    + split; [left; by rewrite Hs|].
      rewrite Htr, <- !app_assoc. eexists. split; [reflexivity|].
      apply Forall_app. split; [by repeat constructor | by apply retry_log_none].
Qed.

(** X15: whatever the payload and the outcome, a placement never writes a
    quote, and the only record it can remove is the one of its own token:
    storage afterwards is either unchanged or the storage before without
    that record. *)
Theorem placePizzaOrder_storage_frame (rt : Runtime) (env : Env)
  (payload : value) (w : World) :
  let run := placePizzaOrder rt env payload w in
  (storage run.2 = storage w
   \/ exists raw, get payload "orderToken" = VStr raw
                  /\ storage run.2 = delete (quote_key (trim raw)) (storage w))
  /\ exists evs, trace run.2 = trace w ++ evs /\ none_of is_storage_write evs.
Proof.
  intros run. apply (placePizzaOrder_frame rt env payload w run.2 run.1).
  apply surjective_pairing.
Qed.

(** ** More on quoting *)

Lemma quoteFinish_priced (rt : Runtime) (env : Env) (v : Validated) (w1 : World) :
  validation_rejected (v_response v) = false ->
  quoteFinish rt env v w1
  = let sent := dominosFetchJson rt env "/power/price-order" "POST" []
                  (v_response v) w1 in
    match sent.1 with
    | Throw e => (Throw e, sent.2)
    | Ok priced =>
        let token := uuid_source env (uuids sent.2) in
        (match summarizeQuote priced with
         | Ok quote => Ok (quote_success token quote)
         | Throw e => Throw e
         end,
         stored_world token (new_quote v (clock sent.2) priced) sent.2)
    end.
Proof.
  intros Hrej. unfold quoteFinish. rewrite Hrej. unfold bind at 1.
  destruct (dominosFetchJson _ _ _ _ _ _ _) as [[priced|e] w2]; [|reflexivity].
  cbn [fst snd]. unfold bind, randomUUID, Date_now, storage_set, lift, ret.
  cbv beta. cbn [fst snd].
  destruct (summarizeQuote priced); reflexivity.
Qed.

Lemma quotePizzaOrder_success_inv (rt : Runtime) (env : Env) (payload : value)
  (w w' : World) (res : value) :
  quotePizzaOrder rt env payload w = (Ok res, w') ->
  get res "ok" = VBool true ->
  exists v w1 w2 priced quote,
    quoteValidate rt env payload w = (Ok v, w1)
    /\ validation_rejected (v_response v) = false
    /\ dominosFetchJson rt env "/power/price-order" "POST" [] (v_response v) w1
       = (Ok priced, w2)
    /\ summarizeQuote priced = Ok quote
    /\ res = quote_success (uuid_source env (uuids w2)) quote
    /\ w' = stored_world (uuid_source env (uuids w2))
              (new_quote v (clock w2) priced) w2.
Proof.
  unfold quotePizzaOrder.
  intros (v & w1 & Hval & Hfin)%bind_ok Hok.
  destruct (validation_rejected (v_response v)) eqn:Hrej.
  - unfold quoteFinish in Hfin. rewrite Hrej in Hfin.
    injection Hfin as <- <-. discriminate Hok.
  - rewrite (quoteFinish_priced _ _ _ _ Hrej) in Hfin. cbv zeta in Hfin.
    destruct (dominosFetchJson _ _ _ _ _ _ _) as [[priced|e] w2] eqn:Hsent;
      cbn [fst snd] in Hfin; [|discriminate].
    destruct (summarizeQuote priced) as [quote|e] eqn:Hsum; [|discriminate].
    injection Hfin as <- <-.
    by exists v, w1, w2, priced, quote.
Qed.

(** X16: when [quotePizzaOrder] returns [ok: true], the result carries an
    order token, and storage afterwards is the storage before plus exactly
    one record, stored under that token: its creation time is the time of
    the store, and the quote summary returned is the summary of the priced
    draft it holds. *)
Theorem quotePizzaOrder_success_stores (rt : Runtime) (env : Env)
  (payload : value) (w w' : World) (res : value) :
  quotePizzaOrder rt env payload w = (Ok res, w') ->
  get res "ok" = VBool true ->
  exists token q,
    get res "orderToken" = VStr token
    /\ storage w' = <[quote_key token := q]> (storage w)
    /\ storage w' !! quote_key token = Some q
    /\ createdAt q = clock w'
    /\ summarizeQuote (pricedDraft q) = Ok (get res "quote").
Proof.
  intros Hrun Hok.
  destruct (quotePizzaOrder_success_inv _ _ _ _ _ _ Hrun Hok)
    as (v & w1 & w2 & priced & quote & Hval & _ & Hsent & Hsum & -> & ->).
  apply quoteValidate_ok in Hval as (Hs1 & _).
  apply dominosFetchJson_frame in Hsent as (Hs2 & _).
  eexists _, _. split; [reflexivity|]. simpl.
  split_and!; [by rewrite Hs2, Hs1 | apply lookup_insert_eq | done | done].
Qed.

Lemma quotePizzaOrder_success_stores_witness :
  let env := demo_env [ok_response doc_stores; ok_response doc_status_zero;
                       ok_response doc_priced] in
  let run := quotePizzaOrder demo_runtime env demo_payload (empty_world 1000000) in
  exists token q,
    storage run.2 = <[quote_key token := q]> ∅
    /\ createdAt q = 1000000.
Proof.
  intros env run.
  assert (Hrun : exists res, run = (Ok res, run.2) /\ get res "ok" = VBool true).
  { eexists. split; vm_compute; reflexivity. }
  destruct Hrun as (res & Hrun & Hok).
  destruct (quotePizzaOrder_success_stores demo_runtime env demo_payload
              (empty_world 1000000) run.2 res Hrun Hok)
    as (token & q & _ & Hs & _ & Hc & _).
  exists token, q. split; [exact Hs | exact Hc].
Defined.

(** The validation answer of a quote is what the validate-order call
    returned, and that call follows the store-locator call and the order
    id. *)
Lemma quoteValidate_answer (rt : Runtime) (env : Env) (payload : value)
  (w w1 : World) (v : Validated) :
  quoteValidate rt env payload w = (Ok v, w1) ->
  exists locate d1 order w0,
    url_path locate = "/power/store-locator"
    /\ trace w0 = trace w ++ retry_log locate d1
                  ++ [RandomUUID (uuid_source env (uuids w))]
    /\ nullish order = false
    /\ get (get order "Order") "StoreID" = VStr (v_storeId v)
    /\ get (get order "Order") "ServiceMethod" = VStr (v_serviceMethod v)
    /\ dominosFetchJson rt env "/power/validate-order" "POST" [] order w0
       = (Ok (v_response v), w1).
Proof.
  unfold quoteValidate.
  rewrite bind_lift. destruct (normalizeServiceMethod _ _); [|discriminate].
  rewrite bind_lift. destruct (buildAddress _ _ _ _ _); [|discriminate].
  rewrite bind_lift. destruct (assertString _ "phone"); [|discriminate].
  rewrite bind_lift. destruct (assertString _ "email"); [|discriminate].
  rewrite bind_lift. destruct (assertString _ "itemsJson"); [|discriminate].
  rewrite bind_lift. destruct (safeJsonParse _ _ _); [|discriminate].
  rewrite bind_lift. destruct (buildProducts _ _); [|discriminate].
  intros (found & wa & Hfind & Hrest)%bind_ok.
  apply findBestStore_frame in Hfind as (_ & Hua & locate & d1 & Hpl & Hta).
  apply bind_ok in Hrest as (id & wb & Hid & Hrest).
  unfold randomUUID in Hid. injection Hid as <- <-.
  apply bind_ok in Hrest as (validated & wc & Hval & Hret).
  unfold ret in Hret. injection Hret as <- <-.
  eexists locate, d1, _, _. split; [exact Hpl|].
  split_and!; [| | | |exact Hval]; [|reflexivity..].
  unfold drew_uuid, log. cbn [trace]. by rewrite Hta, Hua, <- app_assoc.
Qed.

(** X17: a successful quote is three calls in the order store-locator,
    validate-order, price-order.  The body of the price-order request is
    the very answer the validate-order call returned (no body when that
    answer is [null]); the draft stored is the answer of the price-order
    call; and after that answer the only effects are drawing the token and
    storing the draft under it. *)
Theorem quotePizzaOrder_forwards_validated (rt : Runtime) (env : Env)
  (payload : value) (w w' : World) (res : value) :
  quotePizzaOrder rt env payload w = (Ok res, w') ->
  get res "ok" = VBool true ->
  exists locate d1 order validated d2 priced d3 token q w0 w1 w2,
    let validate := request_of rt "/power/validate-order" "POST" [] order in
    let price := request_of rt "/power/price-order" "POST" [] validated in
    url_path locate = "/power/store-locator"
    /\ trace w0 = trace w ++ retry_log locate d1
                  ++ [RandomUUID (uuid_source env (uuids w))]
    /\ dominosFetchJson rt env "/power/validate-order" "POST" [] order w0
       = (Ok validated, w1)
    /\ http_body validate = Some order
    /\ trace w1 = trace w0 ++ retry_log validate d2
    /\ dominosFetchJson rt env "/power/price-order" "POST" [] validated w1
       = (Ok priced, w2)
    /\ http_method price = "POST"
    /\ url_path price = "/power/price-order"
    /\ http_body price = (if nullish validated then None else Some validated)
    /\ trace w2 = trace w1 ++ retry_log price d3
    /\ get res "orderToken" = VStr token
    /\ pricedDraft q = priced
    /\ trace w' = trace w2 ++ [RandomUUID token; StorageSet (quote_key token) q].
Proof.
  intros Hrun Hok.
  destruct (quotePizzaOrder_success_inv _ _ _ _ _ _ Hrun Hok)
    as (v & w1 & w2 & priced & quote & Hval & Hrej & Hsent & Hsum & -> & ->).
  apply quoteValidate_answer in Hval
    as (locate & d1 & order & w0 & Hl & Ht0 & Hnn & _ & _ & Hval).
  pose proof (dominosFetchJson_frame _ _ _ _ _ _ _ _ _ Hval) as (_ & _ & _ & d2 & Ht1).
  pose proof (dominosFetchJson_frame _ _ _ _ _ _ _ _ _ Hsent) as (_ & _ & _ & d3 & Ht2).
  exists locate, d1, order, (v_response v), d2, priced, d3.
  exists (uuid_source env (uuids w2)), (new_quote v (clock w2) priced), w0, w1, w2.
  cbv zeta.
  split_and!; [exact Hl | exact Ht0 | exact Hval | | exact Ht1 | exact Hsent
              | reflexivity | reflexivity | reflexivity | exact Ht2
              | reflexivity | reflexivity | ].
  - unfold request_of. cbn [http_body]. by rewrite Hnn.
  - unfold stored_world, drew_uuid, log. cbn [trace with_storage].
    rewrite <- app_assoc. reflexivity.
Qed.

Lemma quotePizzaOrder_forwards_validated_witness :
  let env := demo_env [ok_response doc_stores; ok_response doc_status_zero;
                       ok_response doc_priced] in
  let run := quotePizzaOrder demo_runtime env demo_payload (empty_world 1000000) in
  (exists order validated priced w0 w1 w2,
     dominosFetchJson demo_runtime env "/power/validate-order" "POST" [] order w0
     = (Ok validated, w1)
     /\ dominosFetchJson demo_runtime env "/power/price-order" "POST" [] validated w1
        = (Ok priced, w2)
     /\ In (Fetch (request_of demo_runtime "/power/price-order" "POST" [] validated))
          (trace run.2))
  /\ In (Fetch {| http_method := "POST"; url_path := "/power/price-order";
                  url_params := []; http_body := Some val_status_zero |})
        (trace run.2).
Proof.
  intros env run.
  assert (Hrun : exists res, run = (Ok res, run.2) /\ get res "ok" = VBool true).
  { eexists. split; vm_compute; reflexivity. }
  destruct Hrun as (res & Hrun & Hok).
  destruct (quotePizzaOrder_forwards_validated demo_runtime env demo_payload
              (empty_world 1000000) run.2 res Hrun Hok)
    as (locate & d1 & order & validated & d2 & priced & d3 & token & q
        & w0 & w1 & w2 & _ & _ & Hv & _ & _ & Hp & _ & _ & _ & Ht2 & _ & _ & Ht).
  split.
  - exists order, validated, priced, w0, w1, w2.
    split_and!; [exact Hv | exact Hp |].
    rewrite Ht, Ht2.
    apply in_or_app. left. apply in_or_app. right.
    destruct d3; by left.
  - vm_compute. tauto.
Defined.

(** X18: the draft is stored before the summary is computed: when pricing
    succeeded but [summarizeQuote] raises on the priced answer, the call
    raises that error and returns no token, yet the record is already
    stored under the token that was drawn. *)
Theorem quotePizzaOrder_stores_before_summary (rt : Runtime) (env : Env)
  (payload : value) (w w1 w2 : World) (v : Validated) (priced : value) (e : exn) :
  quoteValidate rt env payload w = (Ok v, w1) ->
  validation_rejected (v_response v) = false ->
  dominosFetchJson rt env "/power/price-order" "POST" [] (v_response v) w1
  = (Ok priced, w2) ->
  summarizeQuote priced = Throw e ->
  exists w',
    quotePizzaOrder rt env payload w = (Throw e, w')
    /\ storage w' !! quote_key (uuid_source env (uuids w2))
       = Some (new_quote v (clock w2) priced).
Proof.
  intros Hval Hrej Hsent Hsum.
  unfold quotePizzaOrder, bind. rewrite Hval.
  rewrite (quoteFinish_priced _ _ _ _ Hrej). cbv zeta.
  rewrite Hsent. cbn [fst snd]. rewrite Hsum.
  eexists. split; [reflexivity|]. simpl. apply lookup_insert_eq.
Qed.

Lemma quotePizzaOrder_stores_before_summary_witness :
  let env := demo_env [ok_response doc_stores; ok_response doc_status_zero;
                       ok_response doc_priced_null_product] in
  exists w' q,
    quotePizzaOrder menu_runtime env demo_payload (empty_world 1000000)
    = (Throw TypeError, w')
    /\ storage w' !! quote_key "9b2f0c1e-7d4a-4c55-8e21-0a1b2c3d4e5f" = Some q.
Proof.
  intros env.
  pose (validated := quoteValidate menu_runtime env demo_payload (empty_world 1000000)).
  pose (v := {| v_serviceMethod := "Delivery"; v_storeId := "123";
                v_store := VObj [("StoreID", VStr "123")];
                v_response := val_status_zero |}).
  pose (sent := dominosFetchJson menu_runtime env "/power/price-order" "POST" []
                  val_status_zero validated.2).
  destruct (quotePizzaOrder_stores_before_summary menu_runtime env demo_payload
              (empty_world 1000000) validated.2 sent.2 v
              val_priced_null_product TypeError)
    as (w' & Hrun & Hq);
    [vm_compute; reflexivity | reflexivity | vm_compute; reflexivity
    | reflexivity |].
  exists w'. eexists. split; [exact Hrun | exact Hq].
Defined.

Lemma quoteValidate_frame (rt : Runtime) (env : Env) (payload : value)
  (w w1 : World) (res : result Validated) :
  quoteValidate rt env payload w = (res, w1) ->
  storage w1 = storage w
  /\ exists evs, trace w1 = trace w ++ evs /\ none_of is_storage_access evs.
Proof.
  assert (Hnil : forall w0 : World,
            storage w0 = storage w0
            /\ exists evs, trace w0 = trace w0 ++ evs
                           /\ none_of is_storage_access evs).
  { intros w0. split; [done|]. exists []. split; [by rewrite app_nil_r | constructor]. }
  unfold quoteValidate.
  rewrite bind_lift. destruct (normalizeServiceMethod _ _);
    [|intros [= _ <-]; apply Hnil].
  rewrite bind_lift. destruct (buildAddress _ _ _ _ _);
    [|intros [= _ <-]; apply Hnil].
  rewrite bind_lift. destruct (assertString _ "phone");
    [|intros [= _ <-]; apply Hnil].
  rewrite bind_lift. destruct (assertString _ "email");
    [|intros [= _ <-]; apply Hnil].
  rewrite bind_lift. destruct (assertString _ "itemsJson");
    [|intros [= _ <-]; apply Hnil].
  rewrite bind_lift. destruct (safeJsonParse _ _ _);
    [|intros [= _ <-]; apply Hnil].
  rewrite bind_lift. destruct (buildProducts _ _);
    [|intros [= _ <-]; apply Hnil].
  unfold bind at 1.
  destruct (findBestStore _ _ _ _ _ _ _ _) as [[found|e] wa] eqn:Hfind;
    apply findBestStore_frame in Hfind as (Hsa & _ & locate & d1 & _ & Hta).
  2:{ intros [= _ <-]. split; [done|]. exists (retry_log locate d1).
      split; [done | by apply retry_log_none]. }
  unfold bind at 1. unfold randomUUID. cbv beta zeta.
  unfold bind at 1.
  destruct (dominosFetchJson _ _ _ _ _ _ _) as [[validated|e] wc] eqn:Hval;
    apply dominosFetchJson_frame in Hval as (Hsc & _ & _ & d2 & Htc);
    unfold drew_uuid, log in Hsc, Htc; cbn [storage trace] in Hsc, Htc;
    intros [= _ <-]; (split; [congruence|]);
    rewrite Htc, Hta, <- !app_assoc; eexists; (split; [reflexivity|]);
    (apply Forall_app; split; [by apply retry_log_none|]);
    (apply Forall_app; split; [by repeat constructor | by apply retry_log_none]).
Qed.

Lemma none_of_weaken (p q : event -> bool) (evs : list event) :
  (forall e, p e = false -> q e = false) -> none_of p evs -> none_of q evs.
Proof. intros Hpq H. eapply Forall_impl; [exact H | exact Hpq]. Qed.

Lemma quotePizzaOrder_frame (rt : Runtime) (env : Env) (payload : value)
  (w w' : World) (res : result value) :
  quotePizzaOrder rt env payload w = (res, w') ->
  (storage w' = storage w
   \/ exists token q, storage w' = <[quote_key token := q]> (storage w))
  /\ exists evs,
       trace w' = trace w ++ evs
       /\ none_of is_storage_read evs
       /\ none_of is_storage_delete evs
       /\ (count_events is_storage_write evs <= 1)%nat.
Proof.
  assert (Hclean : forall evs, none_of is_storage_access evs ->
            none_of is_storage_read evs /\ none_of is_storage_delete evs
            /\ (count_events is_storage_write evs <= 1)%nat).
  { intros evs H. split_and!.
    - by apply (none_of_weaken is_storage_access); [intros []|].
    - by apply (none_of_weaken is_storage_access); [intros []|].
    - rewrite none_of_count; [lia|].
      by apply (none_of_weaken is_storage_access); [intros []|]. }
  unfold quotePizzaOrder, bind.
  destruct (quoteValidate rt env payload w) as [[v|e] w1] eqn:Hval;
    apply quoteValidate_frame in Hval as (Hs1 & evs1 & Ht1 & Hn1).
  2:{ intros [= _ <-]. split; [by left|]. exists evs1. split; [done|].
      by apply Hclean. }
  destruct (validation_rejected (v_response v)) eqn:Hrej.
  { unfold quoteFinish. rewrite Hrej. intros [= _ <-].
    split; [by left|]. exists evs1. split; [done|]. by apply Hclean. }
  rewrite (quoteFinish_priced _ _ _ _ Hrej). cbv zeta.
  destruct (dominosFetchJson _ _ _ _ _ _ _) as [[priced|e] w2] eqn:Hsent;
    apply dominosFetchJson_frame in Hsent as (Hs2 & _ & _ & d3 & Ht2);
    cbn [fst snd]; intros [= _ <-].
  - split; [right; eexists _, _; simpl; by rewrite Hs2, Hs1|].
    unfold stored_world, drew_uuid, log. cbn [trace with_storage].
    rewrite Ht2, Ht1, <- !app_assoc. eexists. split; [reflexivity|].
    destruct (Hclean _ Hn1) as (Hr & Hd & Hc).
    split_and!.
    + apply Forall_app. split; [done|]. apply Forall_app.
      split; [by apply retry_log_none | by repeat constructor].
    + apply Forall_app. split; [done|]. apply Forall_app.
      split; [by apply retry_log_none | by repeat constructor].
    + rewrite !count_events_app.
      rewrite (none_of_count is_storage_write evs1)
        by (by apply (none_of_weaken is_storage_access); [intros []|]).
      rewrite (none_of_count is_storage_write (retry_log _ d3))
        by (by apply retry_log_none).
      vm_compute. lia.
  - split; [left; congruence|].
    rewrite Ht2, Ht1, <- !app_assoc. eexists. split; [reflexivity|].
    destruct (Hclean _ Hn1) as (Hr & Hd & Hc).
    split_and!.
    + apply Forall_app. split; [done | by apply retry_log_none].
    + apply Forall_app. split; [done | by apply retry_log_none].
    + rewrite count_events_app.
      rewrite (none_of_count is_storage_write (retry_log _ d3))
        by (by apply retry_log_none). lia.
Qed.

(** X19: whatever the payload and the outcome, [quotePizzaOrder] never
    reads or deletes a stored quote and writes at most one: storage
    afterwards is the storage before, or the storage before with one
    record stored under a quote key, so every quote that was stored stays
    retrievable. *)
Theorem quotePizzaOrder_storage_frame (rt : Runtime) (env : Env)
  (payload : value) (w : World) :
  let run := quotePizzaOrder rt env payload w in
  (storage run.2 = storage w
   \/ exists token q, storage run.2 = <[quote_key token := q]> (storage w))
  /\ (forall key, is_Some (storage w !! key) -> is_Some (storage run.2 !! key))
  /\ exists evs,
       trace run.2 = trace w ++ evs
       /\ none_of is_storage_read evs
       /\ none_of is_storage_delete evs
       /\ (count_events is_storage_write evs <= 1)%nat.
Proof.
  intros run.
  destruct (quotePizzaOrder_frame rt env payload w run.2 run.1)
    as [Hs Hevs]; [apply surjective_pairing|].
  split_and!; [exact Hs | | exact Hevs].
  intros key Hkey. destruct Hs as [->|(token & q & ->)]; [done|].
  destruct (decide (quote_key token = key)) as [<-|Hne].
  - rewrite lookup_insert_eq. eauto.
  - by rewrite lookup_insert_ne.
Qed.

(** X20: the token of a successful quote opens the placement: when the
    token drawn is a non-empty string without surrounding whitespace, a
    confirmed placement made right after the quote finds the record,
    passes the age check and posts to place-order the very draft whose
    summary the quote returned; the record is deleted if that call
    returns. *)
Theorem quote_then_place_posts_draft (rt : Runtime) (env : Env)
  (payload : value) (w w' : World) (res : value) (token : string) :
  quotePizzaOrder rt env payload w = (Ok res, w') ->
  get res "ok" = VBool true ->
  get res "orderToken" = VStr token ->
  token <> "" -> is_trimmed token ->
  exists q,
    storage w' !! quote_key token = Some q
    /\ summarizeQuote (pricedDraft q) = Ok (get res "quote")
    /\ let sent :=
         dominosFetchJson rt env "/power/place-order" "POST" [] (pricedDraft q)
           (log (StorageGet (quote_key token)) w') in
       placePizzaOrder rt env
         (VObj [("orderToken", VStr token); ("confirm", VBool true)]) w'
       = match sent.1 with
         | Ok placed =>
             (Ok (VObj [("ok", VBool true); ("result", placed);
                        ("note", VStr place_note)]),
              log (StorageDelete (quote_key token))
                (with_storage (delete (quote_key token) (storage sent.2)) sent.2))
         | Throw e => (Throw e, sent.2)
         end.
Proof.
  intros Hrun Hok Htok Hne Htrim.
  destruct (quotePizzaOrder_success_inv _ _ _ _ _ _ Hrun Hok)
    as (v & w1 & w2 & priced & quote & _ & _ & _ & Hsum & -> & ->).
  simpl in Htok. injection Htok as <-.
  exists (new_quote v (clock w2) priced).
  split_and!; [apply lookup_insert_eq | exact Hsum |].
  pose proof (placePizzaOrder_attempt rt env
                (VObj [("orderToken", VStr (uuid_source env (uuids w2)));
                       ("confirm", VBool true)])
                (stored_world (uuid_source env (uuids w2))
                   (new_quote v (clock w2) priced) w2)
                (uuid_source env (uuids w2))
                (new_quote v (clock w2) priced)) as Hplace.
  unfold is_trimmed in Htrim. rewrite Htrim in Hplace.
  apply Hplace; [reflexivity | done | reflexivity | apply lookup_insert_eq |].
  simpl. lia.
Qed.

Lemma quote_then_place_posts_draft_witness :
  let env := demo_env [ok_response doc_stores; ok_response doc_status_zero;
                       ok_response doc_priced; ok_response doc_placed] in
  let run := quotePizzaOrder demo_runtime env demo_payload (empty_world 1000000) in
  exists q,
    storage run.2 !! quote_key "9b2f0c1e-7d4a-4c55-8e21-0a1b2c3d4e5f" = Some q.
Proof.
  intros env run.
  assert (Hrun : exists res,
            run = (Ok res, run.2) /\ get res "ok" = VBool true
            /\ get res "orderToken" = VStr "9b2f0c1e-7d4a-4c55-8e21-0a1b2c3d4e5f").
  { eexists. split_and!; vm_compute; reflexivity. }
  destruct Hrun as (res & Hrun & Hok & Htok).
  destruct (quote_then_place_posts_draft demo_runtime env demo_payload
              (empty_world 1000000) run.2 res
              "9b2f0c1e-7d4a-4c55-8e21-0a1b2c3d4e5f" Hrun Hok Htok)
    as (q & Hq & _); [discriminate | reflexivity |].
  by exists q.
Defined.

(** ** The menu lookup *)



Lemma toLowerCase_empty (s : string) : is_empty (toLowerCase s) = is_empty s.
Proof. by destruct s. Qed.

Lemma menu_filter_spec (rt : Runtime) (needle : option string)
  (entries : list (string * value)) :
  forall filtered,
    (length filtered < MAX_MENU_RESULTS)%nat ->
    menu_filter rt needle entries filtered
    = take MAX_MENU_RESULTS
        (filtered
         ++ map (menu_item rt)
              (filter (fun e => menu_matches rt needle e = true) entries)).
Proof.
  induction entries as [|e rest IH]; intros filtered Hlen; cbn [menu_filter].
  - rewrite filter_nil. cbn [map]. rewrite app_nil_r. symmetry.
    apply take_ge. lia.
  - destruct (menu_matches rt needle e) eqn:Hm.
    + rewrite filter_cons_True by done. cbn [map].
      destruct (MAX_MENU_RESULTS <=? length (filtered ++ [menu_item rt e]))%nat
        eqn:Hfull.
      * apply Nat.leb_le in Hfull. rewrite length_app in Hfull.
        cbn [length] in Hfull.
        rewrite (cons_middle (menu_item rt e) filtered (map _ _)), app_assoc.
        symmetry. apply take_app_length'.
        rewrite length_app. cbn [length]. lia.
      * apply Nat.leb_gt in Hfull. rewrite IH by done.
        by rewrite <- app_assoc.
    + rewrite filter_cons_False by congruence.
      replace (MAX_MENU_RESULTS <=? length filtered)%nat with false
        by (symmetry; apply Nat.leb_gt; lia).
      by apply IH.
Qed.

Lemma getDominosMenu_run (rt : Runtime) (env : Env) (payload : value)
  (w : World) (rawId : string) :
  get payload "storeId" = VStr rawId ->
  trim rawId <> "" ->
  getDominosMenu rt env payload w
  = let sent := dominosFetchJson rt env (menu_path (trim rawId)) "GET"
                  menu_query VUndef w in
    match sent.1 with
    | Throw e => (Throw e, sent.2)
    | Ok menu =>
        let entries := object_entries (menu_products menu) in
        let search := assertOptionalString (get payload "search") in
        let filtered :=
          take MAX_MENU_RESULTS
            (map (menu_item rt)
               (filter (fun e =>
                          menu_matches rt (option_map toLowerCase search) e = true)
                  entries)) in
        (Ok match search with
            | None =>
                VObj [("storeId", VStr (trim rawId));
                      ("note", VStr menu_note);
                      ("categories",
                       VArr (map VStr (take 50 (object_keys (menu_categories menu)))));
                      ("sampleProducts", VArr (take 50 filtered))]
            | Some s =>
                VObj [("storeId", VStr (trim rawId));
                      ("search", VStr s);
                      ("count", num (Z.of_nat (length filtered)));
                      ("results", VArr filtered);
                      ("truncated",
                       VBool (MAX_MENU_RESULTS <=? length filtered)%nat)]
            end, sent.2)
    end.
Proof.
  intros Hid Hne. unfold getDominosMenu.
  rewrite bind_lift, Hid, (assertString_nonblank _ _ Hne).
  unfold bind. fold menu_query. cbv zeta.
  destruct (dominosFetchJson _ _ _ _ _ _ _) as [[menu|e] w1]; [|reflexivity].
  cbn [fst snd].
  rewrite menu_filter_spec by (unfold MAX_MENU_RESULTS; cbn [length]; lia).
  rewrite app_nil_l.
  destruct (assertOptionalString (get payload "search")); reflexivity.
Qed.

(** X21: [getDominosMenu] with a store id that is missing, not a string or
    blank raises the required-field error for [storeId] and does nothing
    else: no request is sent. *)
Theorem getDominosMenu_requires_store (rt : Runtime) (env : Env)
  (payload : value) (w : World) :
  blank_field (get payload "storeId") = true ->
  getDominosMenu rt env payload w
  = (Throw (UserError (RequiredString "storeId")), w).
Proof.
  intros Hblank. unfold getDominosMenu. rewrite bind_lift.
  pose proof (assertString_cases (get payload "storeId") "storeId") as Hc.
  destruct (assertString (get payload "storeId") "storeId") as [s|e].
  - destruct Hc as [Hc _]. congruence.
  - by destruct Hc as [_ ->].
Qed.

Lemma getDominosMenu_requires_store_witness :
  getDominosMenu menu_runtime (demo_env [ok_response doc_menu])
    (menu_payload (VStr "  ") (VStr "large")) (empty_world 0)
  = (Throw (UserError (RequiredString "storeId")), empty_world 0).
Proof. by apply getDominosMenu_requires_store. Defined.

(** X22: whatever the payload and the outcome, [getDominosMenu] only talks
    to the upstream: it never reads, writes or deletes storage and draws no
    UUID. *)
Theorem getDominosMenu_read_only (rt : Runtime) (env : Env)
  (payload : value) (w : World) :
  let run := getDominosMenu rt env payload w in
  storage run.2 = storage w
  /\ uuids run.2 = uuids w
  /\ exists evs,
       trace run.2 = trace w ++ evs
       /\ none_of is_storage_access evs
       /\ none_of is_uuid evs.
Proof.
  intros run. subst run.
  pose proof (assertString_cases (get payload "storeId") "storeId") as Hc.
  destruct (assertString (get payload "storeId") "storeId") as [s|e] eqn:Hs.
  - destruct Hc as (Hb & rawId & Hid & ->).
    assert (Hne : trim rawId <> "")
      by (rewrite Hid in Hb; by apply is_empty_false).
    rewrite (getDominosMenu_run rt env payload w rawId Hid Hne). cbv zeta.
    destruct (dominosFetchJson _ _ _ _ _ _ _) as [res w1] eqn:Hsent.
    apply dominosFetchJson_frame in Hsent as (Hs1 & Hu1 & _ & delays & Ht).
    cbn [fst snd]. destruct res; cbn [snd];
      (split_and!; [done | done |]);
      exists (retry_log (request_of rt (menu_path (trim rawId)) "GET"
                           menu_query VUndef) delays);
      (split_and!; [done | by apply retry_log_none | by apply retry_log_none]).
  - unfold getDominosMenu. rewrite bind_lift, Hs. cbn [snd].
    split_and!; [done | done |]. exists [].
    split_and!; [by rewrite app_nil_r | constructor | constructor].
Qed.





(** X25: the search of [getDominosMenu] ignores the case of the letters
    [A] to [Z] and the ASCII whitespace around the search term: two
    non-blank terms that are equal once that whitespace is trimmed and
    those letters are lower-cased give the same world and, when the call
    returns, the same results, count and truncation flag. *)
Theorem getDominosMenu_search_case_insensitive (rt : Runtime) (env : Env)
  (storeId : value) (s1 s2 : string) (w : World) :
  toLowerCase (trim s1) = toLowerCase (trim s2) ->
  trim s1 <> "" ->
  let run1 := getDominosMenu rt env (menu_payload storeId (VStr s1)) w in
  let run2 := getDominosMenu rt env (menu_payload storeId (VStr s2)) w in
  run1.2 = run2.2
  /\ match run1.1, run2.1 with
     | Ok r1, Ok r2 =>
         get r1 "results" = get r2 "results"
         /\ get r1 "count" = get r2 "count"
         /\ get r1 "truncated" = get r2 "truncated"
     | Throw e1, Throw e2 => e1 = e2
     | _, _ => False
     end.
Proof.
  intros Heq Hne1 run1 run2. subst run1 run2.
  assert (Hne2 : trim s2 <> "").
  { apply is_empty_false. rewrite <- toLowerCase_empty, <- Heq, toLowerCase_empty.
    by apply is_empty_false. }
  pose proof (assertString_cases storeId "storeId") as Hc.
  destruct (assertString storeId "storeId") as [s|e] eqn:Hs.
  - destruct Hc as (Hb & rawId & -> & ->).
    assert (Hne : trim rawId <> "") by (by apply is_empty_false).
    rewrite (getDominosMenu_run rt env (menu_payload (VStr rawId) (VStr s1))
               w rawId eq_refl Hne),
      (getDominosMenu_run rt env (menu_payload (VStr rawId) (VStr s2))
         w rawId eq_refl Hne).
    cbv zeta.
    destruct (dominosFetchJson _ _ _ _ _ _ _) as [[menu|e] w1]; cbn [fst snd];
      [|done].
    split; [done|].
    change (get (menu_payload (VStr rawId) (VStr ?x)) "search") with (VStr x).
    simpl assertOptionalString.
    rewrite (proj2 (is_empty_false _) Hne1), (proj2 (is_empty_false _) Hne2).
    cbn [option_map]. rewrite Heq.
    set (filtered := take _ _). clearbody filtered.
    split_and!; reflexivity.
  - unfold getDominosMenu. rewrite !bind_lift.
    change (get (menu_payload storeId _) "storeId") with storeId.
    by rewrite Hs.
Qed.

Lemma getDominosMenu_search_case_insensitive_witness :
  let env := demo_env [ok_response doc_menu] in
  let run1 :=
    getDominosMenu menu_runtime env (menu_payload (VStr "123") (VStr " LARGE "))
      (empty_world 0) in
  let run2 :=
    getDominosMenu menu_runtime env (menu_payload (VStr "123") (VStr "large"))
      (empty_world 0) in
  run1.2 = run2.2
  /\ exists r1 r2,
       run1.1 = Ok r1 /\ run2.1 = Ok r2
       /\ get r1 "results" = get r2 "results"
       /\ get r1 "count" = num 1.
Proof.
  intros env run1 run2.
  destruct (getDominosMenu_search_case_insensitive menu_runtime env (VStr "123")
              " LARGE " "large" (empty_world 0)) as [Hw Hres];
    [reflexivity | discriminate |].
  split; [exact Hw|].
  assert (H1 : exists r1, run1.1 = Ok r1 /\ get r1 "count" = num 1)
    by (eexists; split; vm_compute; reflexivity).
  assert (H2 : exists r2, run2.1 = Ok r2) by (eexists; vm_compute; reflexivity).
  destruct H1 as (r1 & H1 & Hc), H2 as (r2 & H2).
  fold run1 run2 in Hres. rewrite H1, H2 in Hres.
  exists r1, r2. split_and!; [exact H1 | exact H2 | apply Hres | exact Hc].
Defined.






